(** * Book_Tracker: access control of the books API and of the middleware

    A shallow embedding of

      - [middleware.ts]                      (module [Middleware]),
      - [app/api/books/route.ts]             (module [BooksRoute]),
      - [app/api/books/[id]/route.ts]        (module [BookIdRoute]),
      - [types/database.ts]                  (module [Book]),
      - [app/dashboard/page.tsx]             (module [Dashboard]),

    together with a model of the two collaborators the handlers talk to:
    the JavaScript values they inspect (module [Js]) and the Supabase
    query builder over the [books] table (module [Supabase]).

    Conventions.  A JavaScript string is a Rocq [string] whose characters
    are code units below 256.  A handler that mutates the table returns the
    response together with the table after the call.  An exception is the
    constructor [Throw] of [Js.result]; every handler body is wrapped in
    [Js.catch], the [try { ... } catch] of the source. *)

From Stdlib Require Import String Ascii List Bool ZArith Lia Sorted.
From Stdlib Require Import Permutation.
Import ListNotations.
Open Scope string_scope.
Open Scope Z_scope.

(* ================================================================== *)
(** ** JavaScript values and the string methods the handlers call *)

Module Js.

(** A computation that may throw. *)
Inductive result (A : Type) : Type :=
| Ok (a : A)
| Throw.
Arguments Ok {A} a.
Arguments Throw {A}.

Definition bind {A B} (r : result A) (k : A -> result B) : result B :=
  match r with
  | Ok a => k a
  | Throw => Throw
  end.

(** [try { body } catch (error) { handler }] *)
Definition catch {A} (body : result A) (handler : A) : A :=
  match body with
  | Ok a => a
  | Throw => handler
  end.

(** What [await request.json()] can produce.  Numbers are kept as
    integers: only whether a number is zero is ever observed. *)
#[warnings="-register-all"]
Inductive json : Type :=
| JNull
| JBool (b : bool)
| JNum (n : Z)
| JStr (s : string)
| JArr (items : list json)
| JObj (fields : list (string * json)).

(** A JavaScript value as a handler sees it: [None] is [undefined]. *)
Definition value := option json.

(** [JSON.parse] keeps the last occurrence of a duplicated key. *)
Fixpoint lookup (k : string) (fields : list (string * json)) : value :=
  match fields with
  | [] => None
  | (k', v) :: rest =>
      match lookup k rest with
      | Some w => Some w
      | None => if String.eqb k k' then Some v else None
      end
  end.

(** [body.k] for one of the keys [title], [author], [status]: reading a
    property of [null] throws a TypeError, primitives and arrays have no
    such property. *)
Definition get (body : json) (k : string) : result value :=
  match body with
  | JNull => Throw
  | JObj fields => Ok (lookup k fields)
  | _ => Ok None
  end.

(** ToBoolean. *)
Definition truthy (v : value) : bool :=
  match v with
  | None => false
  | Some JNull => false
  | Some (JBool b) => b
  | Some (JNum n) => negb (n =? 0)
  | Some (JStr s) => negb (String.eqb s "")
  | Some (JArr _) => true
  | Some (JObj _) => true
  end.

(** ToBoolean of a [string | null], as [searchParams.get] returns it. *)
Definition truthy_str (v : option string) : bool :=
  match v with
  | None => false
  | Some s => negb (String.eqb s "")
  end.

(** WhiteSpace and LineTerminator code units below 256:
    TAB, LF, VT, FF, CR, SP, NBSP. *)
Definition is_white_space (c : ascii) : bool :=
  let n := nat_of_ascii c in
  (Nat.eqb n 9 || Nat.eqb n 10 || Nat.eqb n 11 || Nat.eqb n 12
   || Nat.eqb n 13 || Nat.eqb n 32 || Nat.eqb n 160)%bool.

Fixpoint trimStart (s : string) : string :=
  match s with
  | EmptyString => EmptyString
  | String c s' => if is_white_space c then trimStart s' else s
  end.

Fixpoint trimEnd (s : string) : string :=
  match s with
  | EmptyString => EmptyString
  | String c s' =>
      match trimEnd s' with
      | EmptyString =>
          if is_white_space c then EmptyString else String c EmptyString
      | t => String c t
      end
  end.

(** [String.prototype.trim] *)
Definition trim (s : string) : string := trimEnd (trimStart s).

(** [v.trim()]: only a string has the method; calling it on any other
    truthy value is a TypeError. *)
Definition call_trim (v : value) : result string :=
  match v with
  | Some (JStr s) => Ok (trim s)
  | _ => Throw
  end.

(** [arr.includes(v)] for an array of string literals. *)
Definition includes (arr : list string) (v : value) : bool :=
  match v with
  | Some (JStr s) => existsb (String.eqb s) arr
  | _ => false
  end.

Definition includes_str (arr : list string) (s : string) : bool :=
  existsb (String.eqb s) arr.

(** [s.startsWith(p)] *)
Definition startsWith (s p : string) : bool := String.prefix p s.

(** [s.split(sep)] for a one-character separator. *)
Fixpoint split (sep : ascii) (s : string) : list string :=
  match s with
  | EmptyString => [EmptyString]
  | String c s' =>
      if Ascii.eqb c sep then EmptyString :: split sep s'
      else match split sep s' with
           | seg :: rest => String c seg :: rest
           | [] => [String c EmptyString]
           end
  end.

(** [arr.pop()]: the last element, [undefined] on an empty array. *)
Fixpoint pop (arr : list string) : option string :=
  match arr with
  | [] => None
  | [x] => Some x
  | _ :: rest => pop rest
  end.

End Js.

Notation "x <- e ;; k" := (Js.bind e (fun x => k))
  (at level 61, e at next level, right associativity).

(* ================================================================== *)
(** ** types/database.ts *)

Module User.
Record t : Type := mk { id : string }.
End User.

Module Session.
Record t : Type := mk { user : User.t; access_token : string }.
End Session.

Module Book.
(** [interface Book].  [created_at] is an instant on the backend's
    clock (the source carries its ISO rendering). *)
Record t : Type := mk {
  id : string;
  user_id : string;
  title : string;
  author : string;
  status : string;
  created_at : Z
}.
End Book.

(** The three values of [Book['status']]; every handler spells the list
    out as [['reading', 'completed', 'wishlist']]. *)
Definition statuses : list string := ["reading"; "completed"; "wishlist"].

(* ================================================================== *)
(** ** The Supabase client, as the handlers use it

    The [books] table is the list of its rows, oldest insertion first.
    A query is what the builder calls accumulate: the [.eq] and [.or]
    filters (a row must satisfy all of them) and the [.order] clause.
    The store is reliable: the only errors are the ones PostgREST derives
    from the query itself, namely [.single()] on a result that is not
    exactly one row, and an operand of [.or()] it cannot read.  Row-level
    security is not part of the model, so every ownership check proved
    below is one the handlers make themselves. *)

Module Supabase.

Definition table := list Book.t.

(** [{ data, error }] *)
Inductive response (A : Type) : Type :=
| Data (data : A)
| Error (message : string).
Arguments Data {A} data.
Arguments Error {A} message.

(** The text columns a filter can name. *)
Inductive column := col_id | col_user_id | col_title | col_author | col_status.

Definition cell (c : column) (b : Book.t) : string :=
  match c with
  | col_id => Book.id b
  | col_user_id => Book.user_id b
  | col_title => Book.title b
  | col_author => Book.author b
  | col_status => Book.status b
  end.

(** *** ILIKE patterns *)

Inductive token := Any | One | Lit (c : ascii).

(** PostgREST rewrites [*] to [%] in the operand of [like] and [ilike]. *)
Definition star (c : ascii) : ascii :=
  if Ascii.eqb c "*" then "%"%char else c.

(** SQL LIKE syntax: [%] any sequence, [_] any one character, a
    backslash takes the next character literally.  (A pattern that ends
    in a lone backslash is an error in PostgreSQL; the patterns built by
    [GET] end in [%], so that case does not arise.) *)
Fixpoint parse_like (escaped : bool) (p : list ascii) : list token :=
  match p with
  | [] => []
  | c :: p' =>
      if escaped then Lit c :: parse_like false p'
      else if Ascii.eqb c "\" then parse_like true p'
      else if Ascii.eqb c "%" then Any :: parse_like false p'
      else if Ascii.eqb c "_" then One :: parse_like false p'
      else Lit c :: parse_like false p'
  end.

(** Case folding, as [ILIKE] does it through [lower()] in a UTF-8
    locale, on the code units below 256: the letters A-Z, and the
    accented capitals from U+00C0 to U+00DE but for the sign U+00D7.
    (In the C locale only A-Z fold; the two agree wherever the search
    text is ASCII.) *)
Definition lower (c : ascii) : ascii :=
  let n := nat_of_ascii c in
  if ((Nat.leb 65 n && Nat.leb n 90)
      || (Nat.leb 192 n && Nat.leb n 222 && negb (Nat.eqb n 215)))%bool
  then ascii_of_nat (n + 32) else c.

Definition ci_eqb (a b : ascii) : bool := Ascii.eqb (lower a) (lower b).

Fixpoint like (p : list token) : list ascii -> bool :=
  match p with
  | [] => fun s => match s with [] => true | _ :: _ => false end
  | Lit c :: p' =>
      fun s => match s with
               | [] => false
               | x :: s' => (ci_eqb c x && like p' s')%bool
               end
  | One :: p' =>
      fun s => match s with
               | [] => false
               | _ :: s' => like p' s'
               end
  | Any :: p' =>
      fix skip (s : list ascii) : bool :=
        (like p' s || match s with
                      | [] => false
                      | _ :: s' => skip s'
                      end)%bool
  end.

(** [column ILIKE pattern] *)
Definition ilike (pattern text : string) : bool :=
  like (parse_like false (map star (list_ascii_of_string pattern)))
       (list_ascii_of_string text).

(** *** Filters and queries *)

(** The operators of a condition [column.operator.value] that are read
    here. *)
Inductive operator := op_eq | op_ilike.

Inductive condition := Cond (c : column) (o : operator) (v : string).

Definition satisfies (b : Book.t) (k : condition) : bool :=
  match k with
  | Cond c op_eq v => String.eqb (cell c b) v
  | Cond c op_ilike v => ilike v (cell c b)
  end.

Inductive clause :=
| Eq (c : column) (v : string)       (* .eq(c, v) *)
| Or (alts : list condition).        (* .or('c.ilike.p, ...') *)

Definition holds (f : clause) (b : Book.t) : bool :=
  match f with
  | Eq c v => String.eqb (cell c b) v
  | Or alts => existsb (satisfies b) alts
  end.

Definition matches (fs : list clause) (b : Book.t) : bool :=
  forallb (fun f => holds f b) fs.

(** [.order('created_at', { ascending: false })]: a stable sort, newest
    first. *)
Fixpoint insert_desc (b : Book.t) (l : list Book.t) : list Book.t :=
  match l with
  | [] => [b]
  | x :: l' =>
      if Book.created_at x <=? Book.created_at b then b :: x :: l'
      else x :: insert_desc b l'
  end.

Fixpoint order_desc (l : list Book.t) : list Book.t :=
  match l with
  | [] => []
  | b :: l' => insert_desc b (order_desc l')
  end.

(** *** The operand of [.or()]

    [.or(filters)] sends [or=(filters)].  PostgREST reads the operand as
    conditions separated by commas and closed by the parenthesis: blanks
    around a separator belong to the separator, a condition is
    [column.operator.value], and an unquoted value runs up to the next
    comma or closing parenthesis.  So, nested groups and quoted values
    apart, an operand that holds a closing parenthesis ends early, with
    text left over, and is refused, and a piece between two commas that
    is not a condition is refused too.

    Of the operators only [ilike], the one [GET] writes, and [eq] are
    read here; quoted values, nested [and], [or], [not] and the other
    operators, which PostgREST reads as well, count as refused.  The
    reading is the one PostgREST makes on every operand [GET] builds
    from a search text without a comma. *)

(** The text before the first [sep], and the text after it if there is
    one. *)
Fixpoint cut (sep : ascii) (s : string) : string * option string :=
  match s with
  | EmptyString => (EmptyString, None)
  | String c s' =>
      if Ascii.eqb c sep then (EmptyString, Some s')
      else let '(before, after) := cut sep s' in (String c before, after)
  end.

(** Spaces and tabs in front of a condition. *)
Fixpoint skip_blanks (s : string) : string :=
  match s with
  | EmptyString => EmptyString
  | String c s' =>
      if (Ascii.eqb c " " || Nat.eqb (nat_of_ascii c) 9)%bool
      then skip_blanks s' else s
  end.

Definition column_named (name : string) : option column :=
  if String.eqb name "id" then Some col_id
  else if String.eqb name "user_id" then Some col_user_id
  else if String.eqb name "title" then Some col_title
  else if String.eqb name "author" then Some col_author
  else if String.eqb name "status" then Some col_status
  else None.

Definition operator_named (name : string) : option operator :=
  if String.eqb name "ilike" then Some op_ilike
  else if String.eqb name "eq" then Some op_eq
  else None.

(** One condition [column.operator.value]. *)
Definition parse_condition (piece : string) : option condition :=
  match cut "." (skip_blanks piece) with
  | (name, Some rest) =>
      match cut "." rest with
      | (o, Some value) =>
          match column_named name, operator_named o with
          | Some c, Some o => Some (Cond c o value)
          | _, _ => None
          end
      | (_, None) => None
      end
  | (_, None) => None
  end.

Fixpoint parse_conditions (pieces : list string) : option (list condition) :=
  match pieces with
  | [] => Some []
  | piece :: rest =>
      match parse_condition piece, parse_conditions rest with
      | Some c, Some cs => Some (c :: cs)
      | _, _ => None
      end
  end.

Definition has_char (c : ascii) (s : string) : bool :=
  existsb (Ascii.eqb c) (list_ascii_of_string s).

(** What stands for the message of PostgREST's error PGRST100, which
    also quotes the operand and the position. *)
Definition parse_error : string := "failed to parse logic tree".

Definition parse_or (operand : string) : response (list condition) :=
  if has_char ")" operand then Error parse_error
  else match parse_conditions (Js.split "," operand) with
       | Some alts => Data alts
       | None => Error parse_error
       end.

(** The clause an optional [.or(filters)] adds to a query. *)
Definition or_clause (filters : option string) : response (list clause) :=
  match filters with
  | None => Data []
  | Some operand =>
      match parse_or operand with
      | Data alts => Data [Or alts]
      | Error m => Error m
      end
  end.

(** [from('books').select('*') ... .order('created_at', {ascending:false})]
    with the [.eq] filters [fs] and, when [GET] made the call, the
    operand of [.or()].  The query fails when PostgREST cannot read that
    operand. *)
Definition select_ordered (fs : list clause) (filters : option string) (t : table)
  : response (list Book.t) :=
  match or_clause filters with
  | Data c => Data (order_desc (filter (matches (fs ++ c)) t))
  | Error m => Error m
  end.

(** The message of PostgREST's error PGRST116. *)
Definition not_single_row : string :=
  "JSON object requested, multiple (or no) rows returned".

(** [.single()] *)
Definition single {A} (rows : list A) : response A :=
  match rows with
  | [r] => Data r
  | _ => Error not_single_row
  end.

(** [from('books').select('id') ... .single()] *)
Definition select_id_single (fs : list clause) (t : table) : response string :=
  single (map Book.id (filter (matches fs) t)).

(** The column defaults the database fills in on insert. *)
Record defaults := { new_id : string; now : Z }.

(** The values a handler passes to [.insert]. *)
Record new_book := {
  nb_title : string; nb_author : string; nb_status : string; nb_user_id : string
}.

Definition row_of (d : defaults) (v : new_book) : Book.t :=
  Book.mk (new_id d) (nb_user_id v) (nb_title v) (nb_author v) (nb_status v) (now d).

(** [from('books').insert(v).select().single()] *)
Definition insert_single (d : defaults) (v : new_book) (t : table)
  : response Book.t * table :=
  (single [row_of d v], (t ++ [row_of d v])%list).

(** The [updates] object of [PATCH]: a key is present or not. *)
Record updates := {
  u_title : option string; u_author : option string; u_status : option string
}.

Definition set_field (new : option string) (old : string) : string :=
  match new with
  | Some v => v
  | None => old
  end.

Definition apply_updates (u : updates) (b : Book.t) : Book.t :=
  Book.mk (Book.id b) (Book.user_id b)
          (set_field (u_title u) (Book.title b))
          (set_field (u_author u) (Book.author b))
          (set_field (u_status u) (Book.status b))
          (Book.created_at b).

(** [from('books').update(u) ... .select().single()]: PostgREST runs the
    statement and the singular check in one transaction, which it rolls
    back when the check fails. *)
Definition update_single (u : updates) (fs : list clause) (t : table)
  : response Book.t * table :=
  match single (map (apply_updates u) (filter (matches fs) t)) with
  | Data b =>
      (Data b, map (fun r => if matches fs r then apply_updates u r else r) t)
  | Error m => (Error m, t)
  end.

(** [from('books').delete() ...]: deleting no row is not an error. *)
Definition delete (fs : list clause) (t : table) : response unit * table :=
  (Data tt, filter (fun r => negb (matches fs r)) t).

End Supabase.

(* ================================================================== *)
(** ** next/server: the responses a handler or the middleware returns *)

Module NextResponse.

(** The JSON bodies the handlers build. *)
Inductive body :=
| error (message : string)      (* { error: message } *)
| books (l : list Book.t)       (* { books } *)
| book (b : Book.t)             (* { book } *)
| success                       (* { success: true } *)
| message (m : string).         (* { message: m } *)

Inductive t :=
| json (b : body) (status : nat)              (* NextResponse.json(b, { status }) *)
| redirect (pathname : string)                (* NextResponse.redirect(new URL(pathname, req.url)) *)
| next (cookie : option (string * string)).   (* NextResponse.next(...), and the cookie set on it *)

(** The [Book] records a response discloses. *)
Definition disclosed (r : t) : list Book.t :=
  match r with
  | json (books l) _ => l
  | json (book b) _ => [b]
  | _ => []
  end.

Definition status_of (r : t) : option nat :=
  match r with
  | json _ s => Some s
  | _ => None
  end.

End NextResponse.

(** [const { data: { session }, error: authError } = await supabase.auth.getSession()] *)
Module Auth.
Record t : Type := mk { session : option Session.t; authError : option string }.

(** The session that gets past [if (authError || !session) return 401]. *)
Definition admitted (a : t) : option Session.t :=
  match authError a with
  | Some _ => None
  | None => session a
  end.

Definition signed_in (s : Session.t) : t := mk (Some s) None.
End Auth.

(** The text a column receives from a JSON string. *)
Definition text (v : Js.value) : string :=
  match v with
  | Some (Js.JStr s) => s
  | _ => ""
  end.

Definition internal_server_error : NextResponse.t :=
  NextResponse.json (NextResponse.error "Internal server error") 500.

Definition unauthorized : NextResponse.t :=
  NextResponse.json (NextResponse.error "Unauthorized") 401.

(* ================================================================== *)
(** ** app/api/books/route.ts *)

Module BooksRoute.
Import Supabase NextResponse.

(** The template literal [`%${search}%`]. *)
Definition pattern_of (search : string) : string := "%" ++ search ++ "%".

(** [if (status && [...].includes(status)) query = query.eq('status', status)] *)
Definition status_clause (status : option string) : list clause :=
  match status with
  | Some st =>
      if (Js.truthy_str status && Js.includes_str statuses st)%bool
      then [Eq col_status st] else []
  | None => []
  end.

(** The template literal
    [`title.ilike.%${search}%, author.ilike.%${search}%`]: the search
    text goes into the operand as it is. *)
Definition or_filters (search : string) : string :=
  "title.ilike." ++ pattern_of search ++ ", author.ilike." ++ pattern_of search.

(** [if (search) query = query.or(...)] *)
Definition search_filter (search : option string) : option string :=
  match search with
  | Some q => if Js.truthy_str search then Some (or_filters q) else None
  | None => None
  end.

(** The [.eq] filters [GET] hands to the query builder. *)
Definition query_of (uid : string) (status : option string) : list clause :=
  Eq col_user_id uid :: status_clause status.

(** [status] and [search] are [searchParams.get('status')] and
    [searchParams.get('search')]. *)
Definition GET (a : Auth.t) (status search : option string) (t : table) : NextResponse.t :=
  Js.catch
    (match Auth.admitted a with
     | None => Js.Ok unauthorized
     | Some session =>
         match select_ordered
                 (query_of (User.id (Session.user session)) status)
                 (search_filter search) t with
         | Error m => Js.Ok (json (error m) 500)
         | Data l => Js.Ok (json (books l) 200)
         end
     end)
    internal_server_error.

(** [request_json] is the outcome of [await request.json()], which throws
    on a body that is not JSON; [d] are the defaults the database would
    assign to a new row.  ([body.author] is read before the test rather
    than inside it: a read that follows a successful read of [body.title]
    cannot throw, so the order is not observable.) *)
Definition POST (a : Auth.t) (request_json : Js.result Js.json) (d : defaults)
                (t : table) : NextResponse.t * table :=
  Js.catch
    (match Auth.admitted a with
     | None => Js.Ok (unauthorized, t)
     | Some session =>
         body <- request_json ;;
         title <- Js.get body "title" ;;
         author <- Js.get body "author" ;;
         if (negb (Js.truthy title) || negb (Js.truthy author))%bool
         then Js.Ok (json (error "Title and author are required") 400, t)
         else
         status <- Js.get body "status" ;;
         if negb (Js.includes statuses status)
         then Js.Ok (json (error "Invalid status") 400, t)
         else
         trimmed_title <- Js.call_trim title ;;
         trimmed_author <- Js.call_trim author ;;
         let '(r, t') :=
           insert_single d
             {| nb_title := trimmed_title;
                nb_author := trimmed_author;
                nb_status := text status;
                nb_user_id := User.id (Session.user session) |} t in
         match r with
         | Error m => Js.Ok (json (error m) 500, t')
         | Data b => Js.Ok (json (book b) 201, t')
         end
     end)
    (internal_server_error, t).

(** [pathname] is [new URL(request.url).pathname]. *)
Definition DELETE (a : Auth.t) (pathname : string) (t : table)
  : NextResponse.t * table :=
  Js.catch
    (match Auth.admitted a with
     | None => Js.Ok (unauthorized, t)
     | Some session =>
         let id := Js.pop (Js.split "/" pathname) in
         if negb (Js.truthy_str id)
         then Js.Ok (json (error "Book ID is required") 400, t)
         else
         let id := match id with Some s => s | None => "" end in
         match select_id_single
                 [Eq col_id id; Eq col_user_id (User.id (Session.user session))] t with
         | Error _ => Js.Ok (json (error "Book not found or unauthorized") 404, t)
         | Data _ =>
             let '(r, t') := delete [Eq col_id id] t in
             match r with
             | Error m => Js.Ok (json (error m) 500, t')
             | Data _ => Js.Ok (json success 200, t')
             end
         end
     end)
    (internal_server_error, t).

End BooksRoute.

(* ================================================================== *)
(** ** app/api/books/[id]/route.ts *)

Module BookIdRoute.
Import Supabase NextResponse.

(** [id] is [params.id]. *)
Definition DELETE (a : Auth.t) (id : string) (t : table) : NextResponse.t * table :=
  Js.catch
    (match Auth.admitted a with
     | None => Js.Ok (unauthorized, t)
     | Some session =>
         let '(r, t') :=
           delete [Eq col_id id; Eq col_user_id (User.id (Session.user session))] t in
         match r with
         | Error m => Js.Ok (json (error m) 500, t')
         | Data _ => Js.Ok (json (message "Book deleted successfully") 200, t')
         end
     end)
    (internal_server_error, t).

(** [if (body.k) updates.k = body.k.trim()] *)
Definition trimmed_field (body : Js.json) (k : string) : Js.result (option string) :=
  v <- Js.get body k ;;
  if Js.truthy v then (s <- Js.call_trim v ;; Js.Ok (Some s)) else Js.Ok None.

(** The [updates] object, built key by key. *)
Definition updates_of (body : Js.json) : Js.result updates :=
  new_title <- trimmed_field body "title" ;;
  new_author <- trimmed_field body "author" ;;
  status <- Js.get body "status" ;;
  Js.Ok {| u_title := new_title;
           u_author := new_author;
           u_status := if (Js.truthy status && Js.includes statuses status)%bool
                       then Some (text status) else None |}.

(** [Object.keys(updates).length === 0] *)
Definition no_keys (u : updates) : bool :=
  match u_title u, u_author u, u_status u with
  | None, None, None => true
  | _, _, _ => false
  end.

Definition PATCH (a : Auth.t) (id : string) (request_json : Js.result Js.json)
                 (t : table) : NextResponse.t * table :=
  Js.catch
    (match Auth.admitted a with
     | None => Js.Ok (unauthorized, t)
     | Some session =>
         body <- request_json ;;
         u <- updates_of body ;;
         if no_keys u
         then Js.Ok (json (error "No valid fields to update") 400, t)
         else
         let '(r, t') :=
           update_single u
             [Eq col_id id; Eq col_user_id (User.id (Session.user session))] t in
         match r with
         | Error m => Js.Ok (json (error m) 500, t')
         | Data b => Js.Ok (json (book b) 200, t')
         end
     end)
    (internal_server_error, t).

End BookIdRoute.

(* ================================================================== *)
(** ** middleware.ts *)

Module Middleware.
Import NextResponse.

(** The calls [getSession] makes on the [cookies] object while it
    resolves (and possibly refreshes) the session. *)
Inductive cookie_call :=
| set (name value : string)
| remove (name : string).

(** Each call replaces [response] by a fresh [NextResponse.next] and sets
    its one cookie on it. *)
Definition on_cookie (response : NextResponse.t) (c : cookie_call) : NextResponse.t :=
  match c with
  | set name value => next (Some (name, value))
  | remove name => next (Some (name, ""))
  end.

Definition middleware (calls : list cookie_call) (session : option Session.t)
                      (pathname : string) : NextResponse.t :=
  let response := fold_left on_cookie calls (next None) in
  let signed_in := match session with Some _ => true | None => false end in
  if (negb signed_in && Js.startsWith pathname "/dashboard")%bool
  then redirect "/auth/login"
  else if (negb signed_in && Js.startsWith pathname "/api")%bool
  then json (error "Unauthorized") 401
  else if (signed_in && Js.startsWith pathname "/auth")%bool
  then redirect "/dashboard"
  else response.

(** [config.matcher]: the paths Next.js runs the middleware on.  Next
    compiles each entry into a regular expression of its own, which is
    not part of this development: what is proved of [middleware] holds
    for whatever pathname reaches it. *)
Definition matcher : list string :=
  ["/dashboard/:path*"; "/auth/:path*"; "/api/:path*"].

(** [pathname] is [base] itself or lies below [base/]. *)
Definition under (base pathname : string) : bool :=
  (String.eqb pathname base || String.prefix (base ++ "/") pathname)%bool.

End Middleware.

(* ================================================================== *)
(** ** Vocabulary of the access-control properties *)

(** The row belongs to the user [uid]. *)
Definition owned_by (uid : string) (b : Book.t) : bool :=
  String.eqb (Book.user_id b) uid.

(** The rows of everybody but [uid], in table order. *)
Definition rows_of_others (uid : string) (t : Supabase.table) : list Book.t :=
  filter (fun b => negb (owned_by uid b)) t.

(** [id] is the primary key of [books]. *)
Definition unique_ids (t : Supabase.table) : Prop := NoDup (map Book.id t).

(** The outward signal "not found / unauthorized". *)
Definition not_found_or_unauthorized (r : NextResponse.t) : Prop :=
  NextResponse.status_of r = Some 401%nat \/ NextResponse.status_of r = Some 404%nat.

(** [x] is at least as new as [y]: the order of a newest-first list. *)
Definition newer_eq (x y : Book.t) : Prop :=
  Book.created_at y <= Book.created_at x.

Definition uid_of (s : Session.t) : string := User.id (Session.user s).

(** The characters of a string. *)
Definition chars (s : string) : list ascii := list_ascii_of_string s.

(** [needle] occurs in [hay], letters compared without case. *)
Definition contains_ci (needle hay : string) : Prop :=
  exists pre post : list ascii,
    map Supabase.lower (chars hay)
    = (pre ++ map Supabase.lower (chars needle) ++ post)%list.

(** Characters that stand for themselves in an [ilike] operand: none of
    the LIKE metacharacters, of PostgREST's [*], or of the separators of
    the [.or()] filter syntax (the last one is the double quote). *)
Definition plain (c : ascii) : bool :=
  negb (existsb (Ascii.eqb c)
          (["%"; "_"; "\"; "*"; ","; "("; ")"; ":"; "."]%char
           ++ [ascii_of_nat 34])%list).

(** The request carries no search text, or one made of plain
    characters. *)
Definition plain_search (search : option string) : bool :=
  match search with
  | Some q => forallb plain (chars q)
  | None => true
  end.

(** A text of ASCII characters. *)
Definition ascii_text (s : string) : bool :=
  forallb (fun c => Nat.ltb (nat_of_ascii c) 128) (chars s).

(** A text without a comma. *)
Definition no_comma (s : string) : bool :=
  negb (Supabase.has_char "," s).

(** The row has the status the request asks for: one of the three
    values selects, anything else does not filter. *)
Definition wanted (status : option string) (b : Book.t) : bool :=
  match status with
  | Some st =>
      if Js.includes_str statuses st then String.eqb (Book.status b) st else true
  | None => true
  end.

(** A string without blanks at either end. *)
Definition trimmed (s : string) : Prop := Js.trim s = s.

(** [interface UpdateBookRequest], as a client can send it: [title] and
    [author] are strings when present, and [status] is whatever JSON
    value the client put there. *)
Record UpdateBookRequest := {
  upd_title : option string;
  upd_author : option string;
  upd_status : Js.value
}.

Definition field (k : string) (v : Js.value) : list (string * Js.json) :=
  match v with
  | Some x => [(k, x)]
  | None => []
  end.

(** The JSON object of an [UpdateBookRequest]. *)
Definition patch_body (r : UpdateBookRequest) : Js.json :=
  Js.JObj (field "title" (option_map Js.JStr (upd_title r))
           ++ field "author" (option_map Js.JStr (upd_author r))
           ++ field "status" (upd_status r))%list.

(** What [PATCH] keeps of a text field: nothing when it is absent or
    empty, its trimmed text otherwise. *)
Definition kept_text (v : option string) : option string :=
  match v with
  | Some s => if String.eqb s "" then None else Some (Js.trim s)
  | None => None
  end.

(* ================================================================== *)
(** ** Sample data *)

Module Sample.

Definition alice : Session.t := Session.mk (User.mk "alice") "token-a".
Definition bob : Session.t := Session.mk (User.mk "bob") "token-b".

Definition dune : Book.t := Book.mk "b1" "alice" "Dune" "Herbert" "reading" 10.
Definition emma : Book.t := Book.mk "b2" "bob" "Emma" "John Dune" "completed" 20.
Definition ulysses : Book.t := Book.mk "b3" "alice" "Ulysses" "Joyce" "wishlist" 30.

Definition shelf : Supabase.table := [dune; emma; ulysses].

Definition fresh : Supabase.defaults := {| Supabase.new_id := "b4"; Supabase.now := 40 |}.

(** [{title:"Dune", author:"Herbert", status:"reading"}] *)
Definition dune_request : Js.json :=
  Js.JObj [("title", Js.JStr "Dune"); ("author", Js.JStr "Herbert");
           ("status", Js.JStr "reading")].

(** A create request that also names an owner. *)
Definition spoofed_request : Js.json :=
  Js.JObj [("title", Js.JStr "Dune"); ("author", Js.JStr "Herbert");
           ("status", Js.JStr "reading"); ("user_id", Js.JStr "alice")].

(** A title made of blanks only. *)
Definition blank_title_request : Js.json :=
  Js.JObj [("title", Js.JStr "   "); ("author", Js.JStr "Herbert");
           ("status", Js.JStr "reading")].

End Sample.

(* ================================================================== *)
(** ** middleware.ts: the cookies of the request *)

Module Cookies.

(** [req.cookies]: at most one value per name is visible. *)
Definition jar := list (string * string).

(** [req.cookies.get(name)?.value] *)
Fixpoint get (name : string) (j : jar) : option string :=
  match j with
  | [] => None
  | (n, v) :: rest => if String.eqb n name then Some v else get name rest
  end.

(** [req.cookies.set({ name, value, ...options })] *)
Definition put (name value : string) (j : jar) : jar := (name, value) :: j.

(** What a call of [set] or [remove] does to the request: [remove]
    stores the empty string under the name. *)
Definition on_call (j : jar) (c : Middleware.cookie_call) : jar :=
  match c with
  | Middleware.set name value => put name value j
  | Middleware.remove name => put name "" j
  end.

Definition after (calls : list Middleware.cookie_call) (j : jar) : jar :=
  fold_left on_call calls j.

(** The value the last call that names [name] wrote, if any did. *)
Fixpoint last_written (name : string) (calls : list Middleware.cookie_call)
  : option string :=
  match calls with
  | [] => None
  | c :: rest =>
      match last_written name rest with
      | Some v => Some v
      | None =>
          match c with
          | Middleware.set n v => if String.eqb n name then Some v else None
          | Middleware.remove n => if String.eqb n name then Some "" else None
          end
      end
  end.

End Cookies.

(* ================================================================== *)
(** ** A request to the API, as Next.js serves it

    The paths of the API match [/api/:path*] of [config.matcher], so the
    middleware runs first, on the session it resolves from the same
    cookies the route handler will read; when it answers with anything but
    [NextResponse.next()] that is the response, otherwise the route handler
    answers.  (Headers the middleware sets are not part of a JSON
    response here.) *)

Module Server.
Import Supabase NextResponse.

Definition behind_middleware (calls : list Middleware.cookie_call) (a : Auth.t)
           (pathname : string) (handler : NextResponse.t * table) (t : table)
  : NextResponse.t * table :=
  match Middleware.middleware calls (Auth.session a) pathname with
  | next _ => handler
  | r => (r, t)
  end.

(** [fetch(`/api/books?${params}`)] *)
Definition get_books (calls : list Middleware.cookie_call) (a : Auth.t)
           (status search : option string) (t : table) : NextResponse.t * table :=
  behind_middleware calls a "/api/books" (BooksRoute.GET a status search t, t) t.

(** [fetch('/api/books', { method: 'POST', body })] *)
Definition post_book (calls : list Middleware.cookie_call) (a : Auth.t)
           (request_json : Js.result Js.json) (d : defaults) (t : table)
  : NextResponse.t * table :=
  behind_middleware calls a "/api/books" (BooksRoute.POST a request_json d t) t.

(** [fetch(`/api/books/${id}`, { method: 'DELETE' })], for an id that is
    one path segment. *)
Definition delete_book (calls : list Middleware.cookie_call) (a : Auth.t)
           (id : string) (t : table) : NextResponse.t * table :=
  behind_middleware calls a ("/api/books/" ++ id) (BookIdRoute.DELETE a id t) t.

(** [fetch(`/api/books/${id}`, { method: 'PATCH', body })] *)
Definition patch_book (calls : list Middleware.cookie_call) (a : Auth.t)
           (id : string) (request_json : Js.result Js.json) (t : table)
  : NextResponse.t * table :=
  behind_middleware calls a ("/api/books/" ++ id)
                    (BookIdRoute.PATCH a id request_json t) t.

End Server.

(* ================================================================== *)
(** ** app/dashboard/page.tsx

    One call of a handler of the [Dashboard] component, on the state the
    component was rendered with.  A handler returns the state after its
    [set...] calls and what it did besides, in order.  [session] is what
    the browser client's [getSession] gives; [calls] and [a] are what the
    server resolves for the request the handler sends. *)

Module FormData.
Record t : Type := mk { title : string; author : string; status : string }.

(** [{ title: '', author: '', status: 'reading' }] *)
Definition initial : t := mk "" "" "reading".
End FormData.

Module Dashboard.
Import Supabase NextResponse.

Record state : Type := mk {
  books : list Book.t;
  loading : bool;
  addingBook : bool;
  formData : FormData.t;
  filter : string;
  search : string;
  user : option User.t
}.

Definition setBooks (l : list Book.t) (st : state) : state :=
  mk l (loading st) (addingBook st) (formData st) (filter st) (search st) (user st).

Definition setLoading (b : bool) (st : state) : state :=
  mk (books st) b (addingBook st) (formData st) (filter st) (search st) (user st).

Definition setAddingBook (b : bool) (st : state) : state :=
  mk (books st) (loading st) b (formData st) (filter st) (search st) (user st).

Definition setFormData (f : FormData.t) (st : state) : state :=
  mk (books st) (loading st) (addingBook st) f (filter st) (search st) (user st).

Definition setUser (u : option User.t) (st : state) : state :=
  mk (books st) (loading st) (addingBook st) (formData st) (filter st) (search st) u.

(** What a handler does besides setting state. *)
Inductive effect :=
| push (href : string)                     (* router.push(href) *)
| alert (message : string)                 (* alert(message) *)
| console_error (detail : option string)   (* console.error('Error fetching books:', detail) *)
| signOut.                                 (* supabase.auth.signOut() *)

(** The outcome of a call.  [unmodelled] stands for the two things the
    handlers would do with an answer the API never gives: read a field of
    an ok response that is not there, or parse a response that is not
    JSON. *)
Inductive run (A : Type) : Type :=
| ran (a : A)
| unmodelled.
Arguments ran {A} a.
Arguments unmodelled {A}.

(** [response.ok] *)
Definition ok (status : nat) : bool :=
  (Nat.leb 200 status && Nat.leb status 299)%bool.

(** [data.error] *)
Definition data_error (b : body) : option string :=
  match b with
  | error m => Some m
  | _ => None
  end.

(** ['...: ' + data.error] *)
Definition shown (v : option string) : string :=
  match v with
  | Some m => m
  | None => "undefined"
  end.

(** [if (v) params.append(key, v)], and what [searchParams.get(key)]
    then reads on the server. *)
Definition param (v : string) : option string :=
  if String.eqb v "" then None else Some v.

Definition checkUser (session : option Session.t) (st : state)
  : state * list effect :=
  match session with
  | None => (st, [push "/auth/login"])
  | Some s => (setUser (Some (Session.user s)) st, [])
  end.

Definition fetchBooks (session : option Session.t)
           (calls : list Middleware.cookie_call) (a : Auth.t)
           (st : state) (t : table) : run (state * list effect) :=
  match session with
  | None => ran (setLoading false st, [push "/auth/login"])
  | Some _ =>
      match fst (Server.get_books calls a (param (filter st)) (param (search st)) t) with
      | json b s =>
          if ok s
          then match b with
               | NextResponse.books l => ran (setLoading false (setBooks l st), [])
               | _ => unmodelled
               end
          else ran (setLoading false st, [console_error (data_error b)])
      | _ => unmodelled
      end
  end.

(** [JSON.stringify(formData)], as [request.json()] reads it back. *)
Definition form_json (f : FormData.t) : Js.json :=
  Js.JObj [("title", Js.JStr (FormData.title f));
           ("author", Js.JStr (FormData.author f));
           ("status", Js.JStr (FormData.status f))].

Definition handleAddBook (session : option Session.t)
           (calls : list Middleware.cookie_call) (a : Auth.t) (d : defaults)
           (st : state) (t : table) : run (state * list effect * table) :=
  match session with
  | None => ran (setAddingBook false (setAddingBook true st), [push "/auth/login"], t)
  | Some _ =>
      let '(r, t') := Server.post_book calls a (Js.Ok (form_json (formData st))) d t in
      match r with
      | json b s =>
          if ok s
          then match b with
               | book x =>
                   ran (setAddingBook false
                          (setFormData FormData.initial
                             (setBooks (x :: books st) (setAddingBook true st))),
                        [], t')
               | _ => unmodelled
               end
          else ran (setAddingBook false (setAddingBook true st),
                    [alert ("Error adding book: " ++ shown (data_error b))], t')
      | _ => unmodelled
      end
  end.

(** [confirmed] is the answer to [confirm('Are you sure ...')]. *)
Definition handleDeleteBook (confirmed : bool) (session : option Session.t)
           (calls : list Middleware.cookie_call) (a : Auth.t) (id : string)
           (st : state) (t : table) : run (state * list effect * table) :=
  if negb confirmed then ran (st, [], t)
  else
    match session with
    | None => ran (st, [push "/auth/login"], t)
    | Some _ =>
        let '(r, t') := Server.delete_book calls a id t in
        match r with
        | json b s =>
            if ok s
            then ran (setBooks
                        (List.filter (fun x => negb (String.eqb (Book.id x) id))
                                     (books st)) st,
                      [], t')
            else ran (st, [alert ("Error deleting book: " ++ shown (data_error b))], t')
        | _ => unmodelled
        end
    end.

(** [{ ...book, status }] *)
Definition with_status (status : string) (b : Book.t) : Book.t :=
  Book.mk (Book.id b) (Book.user_id b) (Book.title b) (Book.author b) status
          (Book.created_at b).

Definition handleUpdateStatus (session : option Session.t)
           (calls : list Middleware.cookie_call) (a : Auth.t)
           (id status : string) (st : state) (t : table)
  : run (state * list effect * table) :=
  match session with
  | None => ran (st, [push "/auth/login"], t)
  | Some _ =>
      let '(r, t') :=
        Server.patch_book calls a id
          (Js.Ok (Js.JObj [("status", Js.JStr status)])) t in
      match r with
      | json b s =>
          if ok s
          then ran (setBooks
                      (map (fun x => if String.eqb (Book.id x) id
                                     then with_status status x else x)
                           (books st)) st,
                    [], t')
          else ran (st, [alert ("Error updating book: " ++ shown (data_error b))], t')
      | _ => unmodelled
      end
  end.

Definition handleLogout (st : state) : state * list effect :=
  (st, [signOut; push "/auth/login"]).

(** The names every object inherits from [Object.prototype]; under these
    [colors[status]] is not a class name but the inherited value. *)
Definition inherited_names : list string :=
  ["constructor"; "hasOwnProperty"; "isPrototypeOf"; "propertyIsEnumerable";
   "toLocaleString"; "toString"; "valueOf"; "__proto__";
   "__defineGetter__"; "__defineSetter__"; "__lookupGetter__"; "__lookupSetter__"].

Inductive looked_up :=
| class_names (s : string)
| inherited (name : string).

(** [colors[status as keyof typeof colors] || 'bg-gray-100 text-gray-800'] *)
Definition getStatusColor (status : string) : looked_up :=
  if String.eqb status "reading" then class_names "bg-blue-100 text-blue-800"
  else if String.eqb status "completed" then class_names "bg-green-100 text-green-800"
  else if String.eqb status "wishlist" then class_names "bg-yellow-100 text-yellow-800"
  else if Js.includes_str inherited_names status then inherited status
  else class_names "bg-gray-100 text-gray-800".

End Dashboard.

(* ================================================================== *)
(** ** Vocabulary of the further properties *)

(** Every stored status is one of the three. *)
Definition statuses_valid (t : Supabase.table) : Prop :=
  Forall (fun b => In (Book.status b) statuses) t.

(** Every stored title and author is trimmed. *)
Definition texts_trimmed (t : Supabase.table) : Prop :=
  Forall (fun b => trimmed (Book.title b) /\ trimmed (Book.author b)) t.

(** The caller and the server agree on who is signed in. *)
Definition same_user (session : option Session.t) (a : Auth.t) (sess : Session.t) : Prop :=
  session = Some sess /\ a = Auth.signed_in sess.

(** The list the dashboard shows is the list the API would return for
    its filter and search text. *)
Definition in_sync (sess : Session.t) (st : Dashboard.state) (t : Supabase.table) : Prop :=
  BooksRoute.GET (Auth.signed_in sess)
                 (Dashboard.param (Dashboard.filter st))
                 (Dashboard.param (Dashboard.search st)) t
  = NextResponse.json (NextResponse.books (Dashboard.books st)) 200.

(** The last path segment holds no slash. *)
Definition no_slash (s : string) : bool :=
  forallb (fun c => negb (Ascii.eqb c "/")) (chars s).

(** [s] ends in a slash. *)
Fixpoint ends_in_slash (s : string) : bool :=
  match s with
  | EmptyString => false
  | String c EmptyString => Ascii.eqb c "/"
  | String _ rest => ends_in_slash rest
  end.

(** A sample dashboard: Alice's, showing her two books with no filter. *)
Definition sample_dashboard : Dashboard.state :=
  Dashboard.mk [Sample.ulysses; Sample.dune] false false
               (FormData.mk "Emma" "Jane Austen" "wishlist") "" "" None.

(* ================================================================== *)
(** * Properties *)

Import Supabase NextResponse.

(** ** The JavaScript helpers on small inputs *)

Example trim_blanks : Js.trim "  Dune Messiah  " = "Dune Messiah".
Proof. vm_compute. reflexivity. Qed.

Example trim_only_blanks : Js.trim "   " = EmptyString.
Proof. vm_compute. reflexivity. Qed.

Example split_pathname :
  Js.split "/" "/api/books/b1" = [EmptyString; "api"; "books"; "b1"]
  /\ Js.pop (Js.split "/" "/api/books/b1") = Some "b1"
  /\ Js.pop (Js.split "/" "/api/books/") = Some EmptyString.
Proof. repeat split. Qed.

Example ilike_samples :
  ilike "%dune%" "John Dune" = true
  /\ ilike "%dune%" "Ulysses" = false
  /\ ilike "%d_ne%" "Dune" = true
  /\ ilike "%d\_ne%" "Dune" = false.
Proof. vm_compute. repeat split. Qed.

(** [ILIKE] folds the accented capitals too: the pattern is e-acute
    followed by [mile], the text E-acute followed by [mile]. *)
Example ilike_accents :
  ilike (String (ascii_of_nat 233) "mile") (String (ascii_of_nat 201) "mile") = true.
Proof. vm_compute. reflexivity. Qed.

(** The operand of [.or()] for three search texts: one that is read as
    meant, one with a comma and one with a closing parenthesis. *)
Example or_operand_samples :
  parse_or (BooksRoute.or_filters "dune")
  = Data [Cond col_title op_ilike "%dune%"; Cond col_author op_ilike "%dune%"]
  /\ parse_or (BooksRoute.or_filters "e,J") = Error parse_error
  /\ parse_or (BooksRoute.or_filters "a)b") = Error parse_error.
Proof. vm_compute. repeat split. Qed.

(** ** Lists, filters and the ordering *)

Section ListFacts.

Lemma in_insert_desc (x b : Book.t) (l : list Book.t) :
  In x (insert_desc b l) <-> x = b \/ In x l.
Proof.
  induction l as [|y l IH]; simpl.
  - intuition.
  - destruct (Book.created_at y <=? Book.created_at b); simpl.
    + intuition.
    + rewrite IH. intuition.
Qed.

Lemma in_order_desc (x : Book.t) (l : list Book.t) :
  In x (order_desc l) <-> In x l.
Proof.
  induction l as [|y l IH]; simpl.
  - tauto.
  - rewrite in_insert_desc, IH. intuition.
Qed.

Lemma insert_desc_sorted (b : Book.t) (l : list Book.t) :
  StronglySorted newer_eq l -> StronglySorted newer_eq (insert_desc b l).
Proof.
  induction 1 as [|y l Hs IH Hy]; simpl.
  - repeat constructor.
  - destruct (Book.created_at y <=? Book.created_at b) eqn:E.
    + apply Z.leb_le in E. constructor.
      * constructor; assumption.
      * constructor; [exact E|].
        eapply Forall_impl; [|exact Hy]. unfold newer_eq. intros; lia.
    + apply Z.leb_gt in E. constructor; [exact IH|].
      apply Forall_forall. intros x Hx. apply in_insert_desc in Hx.
      destruct Hx as [->|Hx].
      * unfold newer_eq. lia.
      * rewrite Forall_forall in Hy. auto.
Qed.

Lemma order_desc_sorted (l : list Book.t) : StronglySorted newer_eq (order_desc l).
Proof.
  induction l; simpl.
  - constructor.
  - apply insert_desc_sorted. assumption.
Qed.

Lemma insert_desc_front (b : Book.t) (l : list Book.t) :
  Forall (newer_eq b) l -> insert_desc b l = b :: l.
Proof.
  destruct 1 as [|y l Hy _]; simpl.
  - reflexivity.
  - apply Z.leb_le in Hy. rewrite Hy. reflexivity.
Qed.

Lemma Forall_filter {A} (P : A -> Prop) (p : A -> bool) (l : list A) :
  Forall P l -> Forall P (filter p l).
Proof.
  rewrite !Forall_forall. intros H x Hx. apply filter_In in Hx. apply H, Hx.
Qed.

(** The sort is stable, so a filter commutes with it. *)
Lemma filter_insert_desc (p : Book.t -> bool) (b : Book.t) (l : list Book.t) :
  StronglySorted newer_eq l ->
  filter p (insert_desc b l)
  = if p b then insert_desc b (filter p l) else filter p l.
Proof.
  induction 1 as [|y l Hs IH Hy]; simpl.
  - destruct (p b); reflexivity.
  - destruct (Book.created_at y <=? Book.created_at b) eqn:E; simpl.
    + destruct (p b) eqn:Pb, (p y) eqn:Py; simpl; try rewrite E; try reflexivity.
      symmetry. apply insert_desc_front, Forall_filter.
      apply Z.leb_le in E.
      eapply Forall_impl; [|exact Hy]. unfold newer_eq. intros; lia.
    + rewrite IH. destruct (p b), (p y); simpl; try rewrite E; reflexivity.
Qed.

Lemma filter_order_desc (p : Book.t -> bool) (l : list Book.t) :
  filter p (order_desc l) = order_desc (filter p l).
Proof.
  induction l as [|y l IH]; simpl.
  - reflexivity.
  - rewrite filter_insert_desc by apply order_desc_sorted.
    rewrite IH. destruct (p y); reflexivity.
Qed.

Lemma filter_filter_and {A} (p q : A -> bool) (l : list A) :
  filter p (filter q l) = filter (fun x => (q x && p x)%bool) l.
Proof.
  induction l as [|y l IH]; simpl.
  - reflexivity.
  - destruct (q y); simpl; rewrite IH; reflexivity.
Qed.

(** A row newer than every row of [l] sorts to the front. *)
Lemma order_desc_newest (b : Book.t) (l : list Book.t) :
  (forall x, In x l -> Book.created_at x < Book.created_at b) ->
  order_desc (l ++ [b]) = b :: order_desc l.
Proof.
  induction l as [|y l IH]; simpl; intros H.
  - reflexivity.
  - rewrite IH by auto. simpl.
    destruct (Book.created_at b <=? Book.created_at y) eqn:E.
    + apply Z.leb_le in E. specialize (H y (or_introl eq_refl)). lia.
    + reflexivity.
Qed.

Lemma unique_ids_inj (t : table) (x y : Book.t) :
  unique_ids t -> In x t -> In y t -> Book.id x = Book.id y -> x = y.
Proof.
  unfold unique_ids. induction t as [|z t IH]; simpl; intros N Hx Hy E.
  - contradiction.
  - inversion N as [|? ? Hz N']; subst.
    destruct Hx as [->|Hx], Hy as [->|Hy].
    + reflexivity.
    + exfalso. apply Hz. rewrite E. apply in_map, Hy.
    + exfalso. apply Hz. rewrite <- E. apply in_map, Hx.
    + auto.
Qed.

End ListFacts.

(** ** Ownership scoping of the queries *)

Section Ownership.

Variable uid : string.

Lemma matches_owner (fs : list clause) (b : Book.t) :
  matches (Eq col_user_id uid :: fs) b = true -> owned_by uid b = true.
Proof.
  unfold matches, owned_by. simpl. intros H.
  apply andb_true_iff in H. apply H.
Qed.

Lemma matches_id_owner (i : string) (b : Book.t) :
  matches [Eq col_id i; Eq col_user_id uid] b
  = (String.eqb (Book.id b) i && owned_by uid b)%bool.
Proof.
  unfold matches, owned_by. simpl. rewrite andb_true_r. reflexivity.
Qed.

Lemma owned_by_apply_updates (u : updates) (b : Book.t) :
  owned_by uid (apply_updates u b) = owned_by uid b.
Proof. reflexivity. Qed.

Lemma rows_of_others_map (f : Book.t -> Book.t) (t : table) :
  (forall r, owned_by uid r = false -> f r = r) ->
  (forall r, owned_by uid (f r) = owned_by uid r) ->
  rows_of_others uid (map f t) = rows_of_others uid t.
Proof.
  intros Hid Hown. unfold rows_of_others.
  induction t as [|r t IH]; simpl.
  - reflexivity.
  - rewrite Hown, IH. destruct (owned_by uid r) eqn:E; simpl.
    + reflexivity.
    + rewrite Hid by exact E. reflexivity.
Qed.

Lemma rows_of_others_filter (p : Book.t -> bool) (t : table) :
  (forall r, In r t -> owned_by uid r = false -> p r = true) ->
  rows_of_others uid (filter p t) = rows_of_others uid t.
Proof.
  unfold rows_of_others. induction t as [|r t IH]; simpl; intros H.
  - reflexivity.
  - destruct (owned_by uid r) eqn:E; simpl.
    + destruct (p r); simpl; rewrite ?E; simpl; apply IH; auto.
    + rewrite (H r) by auto. simpl. rewrite E. simpl. f_equal. apply IH; auto.
Qed.

(** [update(...).eq('id', i).eq('user_id', uid)] leaves every row of
    another user as it was, and hands back a row of [uid] only. *)
Lemma update_single_scoped (u : updates) (i : string) (t : table) :
  rows_of_others uid
    (snd (update_single u [Eq col_id i; Eq col_user_id uid] t))
  = rows_of_others uid t
  /\ forall b,
       fst (update_single u [Eq col_id i; Eq col_user_id uid] t) = Data b ->
       owned_by uid b = true.
Proof.
  unfold update_single.
  destruct (filter (matches [Eq col_id i; Eq col_user_id uid]) t)
    as [|r [|r' rs]] eqn:F; cbn [map single fst snd].
  - split; [reflexivity | discriminate].
  - split.
    + apply rows_of_others_map.
      * intros x Hx. rewrite matches_id_owner, Hx, andb_false_r. reflexivity.
      * intros x. destruct (matches _ x); reflexivity.
    + intros b [= <-]. rewrite owned_by_apply_updates.
      assert (In r (filter (matches [Eq col_id i; Eq col_user_id uid]) t)) as H
        by (rewrite F; left; reflexivity).
      apply filter_In in H. destruct H as [_ H].
      rewrite matches_id_owner in H. apply andb_true_iff in H. apply H.
  - split; [reflexivity | discriminate].
Qed.

(** [delete().eq('id', i).eq('user_id', uid)] removes rows of [uid] only. *)
Lemma delete_scoped (i : string) (t : table) :
  rows_of_others uid (snd (delete [Eq col_id i; Eq col_user_id uid] t))
  = rows_of_others uid t.
Proof.
  unfold delete. cbn [snd]. apply rows_of_others_filter. intros r _ Hr.
  cbv beta. rewrite matches_id_owner, Hr, andb_false_r. reflexivity.
Qed.

(** The ownership lookup of the collection-route [DELETE] finds nothing
    under the id of somebody else's row. *)
Lemma lookup_foreign (R : Book.t) (t : table) :
  unique_ids t -> In R t -> owned_by uid R = false ->
  filter (matches [Eq col_id (Book.id R); Eq col_user_id uid]) t = [].
Proof.
  intros U HR Hown.
  destruct (filter _ t) as [|b rest] eqn:F; [reflexivity|].
  assert (In b (filter (matches [Eq col_id (Book.id R); Eq col_user_id uid]) t)) as H
    by (rewrite F; left; reflexivity).
  apply filter_In in H. destruct H as [Hb Hm].
  rewrite matches_id_owner in Hm. apply andb_true_iff in Hm.
  destruct Hm as [Hid Hb'].
  apply String.eqb_eq in Hid.
  rewrite (unique_ids_inj t b R U Hb HR Hid) in Hb'. congruence.
Qed.

(** After a successful ownership lookup, the unscoped
    [delete().eq('id', i)] still removes no row of another user, because
    [id] is a key. *)
Lemma delete_after_lookup (i : string) (t : table) (found : string) :
  unique_ids t ->
  select_id_single [Eq col_id i; Eq col_user_id uid] t = Data found ->
  rows_of_others uid (snd (delete [Eq col_id i] t)) = rows_of_others uid t.
Proof.
  intros U L. unfold delete. cbn [snd].
  apply rows_of_others_filter. intros r Hr Hown.
  unfold select_id_single in L.
  destruct (filter (matches [Eq col_id i; Eq col_user_id uid]) t)
    as [|b [|b' rs]] eqn:F; simpl in L; try discriminate.
  assert (In b (filter (matches [Eq col_id i; Eq col_user_id uid]) t)) as H
    by (rewrite F; left; reflexivity).
  apply filter_In in H. destruct H as [Hb Hm].
  rewrite matches_id_owner in Hm. apply andb_true_iff in Hm.
  destruct Hm as [Hid Hb'].
  cbv beta. unfold matches. simpl. rewrite andb_true_r.
  destruct (String.eqb (Book.id r) i) eqn:E; [|reflexivity].
  apply String.eqb_eq in E, Hid.
  assert (r = b) by (apply (unique_ids_inj t); congruence).
  congruence.
Qed.

End Ownership.

(** ** What PostgREST makes of the operand [GET] builds *)

Section OrOperand.

Lemma has_char_app (c : ascii) (a b : string) :
  has_char c (a ++ b) = (has_char c a || has_char c b)%bool.
Proof.
  unfold has_char. induction a as [|x a IH]; cbn [append list_ascii_of_string existsb].
  - reflexivity.
  - rewrite IH. apply orb_assoc.
Qed.

Lemma split_whole (sep : ascii) (s : string) :
  has_char sep s = false -> Js.split sep s = [s].
Proof.
  unfold has_char. induction s as [|x s IH]; cbn [list_ascii_of_string existsb Js.split].
  - reflexivity.
  - intros H. apply orb_false_iff in H. destruct H as [Hx H].
    rewrite Ascii.eqb_sym, Hx, IH by exact H. reflexivity.
Qed.

Lemma split_at (sep : ascii) (a b : string) :
  has_char sep a = false ->
  Js.split sep (a ++ String sep b) = a :: Js.split sep b.
Proof.
  unfold has_char.
  induction a as [|x a IH]; cbn [append list_ascii_of_string existsb Js.split].
  - rewrite Ascii.eqb_refl. reflexivity.
  - intros H. apply orb_false_iff in H. destruct H as [Hx H].
    rewrite Ascii.eqb_sym, Hx, IH by exact H. reflexivity.
Qed.

Lemma append_assoc' (a b c : string) : ((a ++ b) ++ c = a ++ b ++ c)%string.
Proof.
  induction a as [|x a IH]; cbn [append]; [reflexivity|]. rewrite IH. reflexivity.
Qed.

Lemma title_condition (v : string) :
  parse_condition ("title.ilike." ++ v) = Some (Cond col_title op_ilike v).
Proof. reflexivity. Qed.

Lemma author_condition (v : string) :
  parse_condition (" author.ilike." ++ v) = Some (Cond col_author op_ilike v).
Proof. reflexivity. Qed.

(** The operand built from a search text without a comma is read as the
    two conditions it was meant to be, unless the text closes the
    parenthesis. *)
Lemma or_filters_read (q : string) :
  no_comma q = true ->
  parse_or (BooksRoute.or_filters q)
  = if has_char ")" q then Error parse_error
    else Data [Cond col_title op_ilike (BooksRoute.pattern_of q);
               Cond col_author op_ilike (BooksRoute.pattern_of q)].
Proof.
  unfold no_comma. intros Hc. apply negb_true_iff in Hc.
  assert (forall c, has_char c (BooksRoute.pattern_of q)
                    = (Ascii.eqb c "%" || has_char c q)%bool) as Hp.
  { intros c. unfold BooksRoute.pattern_of. rewrite !has_char_app.
    change (has_char c "%") with (Ascii.eqb c "%" || false)%bool.
    destruct (Ascii.eqb c "%"), (has_char c q); reflexivity. }
  unfold parse_or.
  assert (has_char ")" (BooksRoute.or_filters q) = has_char ")" q) as ->.
  { unfold BooksRoute.or_filters. rewrite !has_char_app, !Hp.
    change (has_char ")" "title.ilike.") with false.
    change (has_char ")" ", author.ilike.") with false.
    cbn [Ascii.eqb Bool.eqb andb orb]. destruct (has_char ")" q); reflexivity. }
  destruct (has_char ")" q); [reflexivity|].
  assert (BooksRoute.or_filters q
          = ("title.ilike." ++ BooksRoute.pattern_of q)
              ++ String "," (" author.ilike." ++ BooksRoute.pattern_of q)) as ->.
  { unfold BooksRoute.or_filters. rewrite append_assoc'. reflexivity. }
  rewrite split_at, split_whole.
  - cbn [parse_conditions]. rewrite title_condition, author_condition. reflexivity.
  - rewrite has_char_app, Hp, Hc. reflexivity.
  - rewrite has_char_app, Hp, Hc. reflexivity.
Qed.

Lemma plain_inv' (c : ascii) :
  plain c = true -> Ascii.eqb c "," = false /\ Ascii.eqb c ")" = false.
Proof.
  unfold plain. cbn [existsb app]. intros H. apply negb_true_iff in H.
  repeat (apply orb_false_iff in H; destruct H as [? H]).
  auto.
Qed.

Lemma plain_text_reads (q : string) :
  forallb plain (chars q) = true -> no_comma q = true /\ has_char ")" q = false.
Proof.
  unfold no_comma, has_char, chars.
  induction (list_ascii_of_string q) as [|c cs IH]; cbn [forallb existsb].
  - intros _. split; reflexivity.
  - intros H. apply andb_true_iff in H. destruct H as [Hc H].
    destruct (IH H) as [I1 I2]. apply negb_true_iff in I1.
    destruct (plain_inv' c Hc) as [C1 C2].
    rewrite (Ascii.eqb_sym "," c), (Ascii.eqb_sym ")" c), C1, C2, I1, I2.
    split; reflexivity.
Qed.

End OrOperand.

(** ** The handlers behind a valid session *)

Section SignedIn.

Variable sess : Session.t.

Lemma GET_signed_in (status search : option string) (t : table) :
  BooksRoute.GET (Auth.signed_in sess) status search t
  = match or_clause (BooksRoute.search_filter search) with
    | Data c =>
        json (books (order_desc
                       (filter (matches (BooksRoute.query_of (uid_of sess) status ++ c))
                               t)))
             200
    | Error m => json (error m) 500
    end.
Proof.
  unfold BooksRoute.GET, select_ordered.
  cbn [Auth.admitted Auth.signed_in Auth.authError Auth.session].
  destruct (or_clause (BooksRoute.search_filter search)); reflexivity.
Qed.

(** Whatever the search text, the answer is 500 for every table, or it
    is for every table the sorted rows that pass one and the same list of
    filters, the first of which is the owner's. *)
Lemma GET_answers (status search : option string) :
  (exists m, forall t,
      BooksRoute.GET (Auth.signed_in sess) status search t = json (error m) 500)
  \/ (exists fs, forall t,
         BooksRoute.GET (Auth.signed_in sess) status search t
         = json (books (order_desc
                          (filter (matches (Eq col_user_id (uid_of sess) :: fs)) t)))
                200).
Proof.
  destruct (or_clause (BooksRoute.search_filter search)) as [c|m] eqn:E.
  - right. exists (BooksRoute.status_clause status ++ c)%list.
    intros t. rewrite GET_signed_in, E. reflexivity.
  - left. exists m. intros t. rewrite GET_signed_in, E. reflexivity.
Qed.

Lemma GET_without_search (status search : option string) (t : table) :
  Js.truthy_str search = false ->
  BooksRoute.GET (Auth.signed_in sess) status search t
  = json (books (order_desc
                   (filter (matches (BooksRoute.query_of (uid_of sess) status)) t)))
         200.
Proof.
  intros H. rewrite GET_signed_in.
  assert (BooksRoute.search_filter search = None) as ->.
  { destruct search as [q|]; [|reflexivity].
    unfold BooksRoute.search_filter. rewrite H. reflexivity. }
  cbn [or_clause]. rewrite app_nil_r. reflexivity.
Qed.

Lemma GET_with_search (status : option string) (q : string) (t : table) :
  q <> "" -> no_comma q = true -> has_char ")" q = false ->
  BooksRoute.GET (Auth.signed_in sess) status (Some q) t
  = json (books (order_desc
                   (filter (matches
                              (BooksRoute.query_of (uid_of sess) status
                               ++ [Or [Cond col_title op_ilike (BooksRoute.pattern_of q);
                                       Cond col_author op_ilike (BooksRoute.pattern_of q)]]))
                           t)))
         200.
Proof.
  intros Hne Hc Hp. rewrite GET_signed_in.
  unfold BooksRoute.search_filter.
  assert (Js.truthy_str (Some q) = true) as ->.
  { apply String.eqb_neq in Hne. cbn. rewrite Hne. reflexivity. }
  cbn [or_clause]. rewrite or_filters_read, Hp by exact Hc. reflexivity.
Qed.

(** With no search text, or a plain one, the answer is a list. *)
Lemma GET_plain_search (status search : option string) (t : table) :
  plain_search search = true ->
  exists l, BooksRoute.GET (Auth.signed_in sess) status search t = json (books l) 200.
Proof.
  intros H. destruct (Js.truthy_str search) eqn:T.
  - destruct search as [q|]; [|discriminate]. cbn [plain_search] in H.
    destruct (plain_text_reads q H) as [Hc Hp].
    eexists. apply GET_with_search; [|exact Hc|exact Hp].
    intros ->. discriminate.
  - eexists. apply GET_without_search. exact T.
Qed.

Lemma DELETE_id_signed_in (i : string) (t : table) :
  BookIdRoute.DELETE (Auth.signed_in sess) i t
  = (json (message "Book deleted successfully") 200,
     snd (delete [Eq col_id i; Eq col_user_id (uid_of sess)] t)).
Proof. reflexivity. Qed.

Lemma PATCH_signed_in (i : string) (req : Js.result Js.json) (t : table) :
  BookIdRoute.PATCH (Auth.signed_in sess) i req t
  = match (body <- req ;; BookIdRoute.updates_of body) with
    | Js.Throw => (internal_server_error, t)
    | Js.Ok u =>
        if BookIdRoute.no_keys u
        then (json (error "No valid fields to update") 400, t)
        else match update_single u [Eq col_id i; Eq col_user_id (uid_of sess)] t with
             | (Data b, t') => (json (book b) 200, t')
             | (Error m, t') => (json (error m) 500, t')
             end
    end.
Proof.
  unfold BookIdRoute.PATCH. cbn [Auth.admitted Auth.signed_in Auth.authError Auth.session].
  destruct req as [body|]; cbn [Js.bind Js.catch]; [|reflexivity].
  destruct (BookIdRoute.updates_of body) as [u|]; cbn [Js.bind Js.catch]; [|reflexivity].
  destruct (BookIdRoute.no_keys u); cbn [Js.catch]; [reflexivity|].
  unfold uid_of.
  destruct (update_single u _ t) as [[b|m] t']; reflexivity.
Qed.

Lemma DELETE_collection_signed_in (pathname : string) (t : table) :
  BooksRoute.DELETE (Auth.signed_in sess) pathname t
  = match Js.pop (Js.split "/" pathname) with
    | None => (json (error "Book ID is required") 400, t)
    | Some i =>
        if String.eqb i ""
        then (json (error "Book ID is required") 400, t)
        else match select_id_single [Eq col_id i; Eq col_user_id (uid_of sess)] t with
             | Error _ => (json (error "Book not found or unauthorized") 404, t)
             | Data _ => (json success 200, snd (delete [Eq col_id i] t))
             end
    end.
Proof.
  unfold BooksRoute.DELETE. cbn [Auth.admitted Auth.signed_in Auth.authError Auth.session].
  destruct (Js.pop (Js.split "/" pathname)) as [i|]; cbn [Js.truthy_str negb Js.catch].
  - destruct (String.eqb i ""); cbn [negb Js.catch]; [reflexivity|].
    unfold uid_of. destruct (select_id_single _ t); reflexivity.
  - reflexivity.
Qed.

Lemma filter_none_negb {A} (p : A -> bool) (l : list A) :
  filter p l = [] -> filter (fun x => negb (p x)) l = l.
Proof.
  induction l as [|x l IH]; simpl; [reflexivity|].
  destruct (p x); simpl; [discriminate|]. intros H. f_equal. auto.
Qed.

End SignedIn.

(** X13.  The collection-route [DELETE] removes by id alone, after having
    looked the row up by id and owner: with [id] a key, it too removes
    rows of the caller only, whatever the path. *)
Lemma DELETE_collection_scoped (sess : Session.t) (pathname : string) (t : table) :
  unique_ids t ->
  rows_of_others (uid_of sess)
    (snd (BooksRoute.DELETE (Auth.signed_in sess) pathname t))
  = rows_of_others (uid_of sess) t.
Proof.
  intros U. rewrite DELETE_collection_signed_in.
  destruct (Js.pop (Js.split "/" pathname)) as [i|]; [|reflexivity].
  destruct (String.eqb i ""); [reflexivity|].
  destruct (select_id_single _ t) as [found|m] eqn:L; [|reflexivity].
  cbn [snd]. eapply delete_after_lookup; eassumption.
Qed.

(** Without a session, or with an error from [getSession], every handler
    answers 401 and leaves the table alone. *)
Lemma unauthenticated_is_401 (a : Auth.t) :
  Auth.admitted a = None ->
  (forall status search t, BooksRoute.GET a status search t = unauthorized)
  /\ (forall req d t, BooksRoute.POST a req d t = (unauthorized, t))
  /\ (forall pathname t, BooksRoute.DELETE a pathname t = (unauthorized, t))
  /\ (forall i t, BookIdRoute.DELETE a i t = (unauthorized, t))
  /\ (forall i req t, BookIdRoute.PATCH a i req t = (unauthorized, t)).
Proof.
  intros H.
  unfold BooksRoute.GET, BooksRoute.POST, BooksRoute.DELETE,
         BookIdRoute.DELETE, BookIdRoute.PATCH.
  rewrite H. repeat split.
Qed.

(** Filtering a table keeps its ids unique. *)
Lemma unique_ids_filter (keep : Book.t -> bool) (t : table) :
  unique_ids t -> unique_ids (filter keep t).
Proof.
  unfold unique_ids. induction t as [|r t IH]; cbn [filter map]; intros U.
  - constructor.
  - apply NoDup_cons_iff in U. destruct U as [Hr U].
    destruct (keep r); cbn [map]; [|exact (IH U)].
    apply NoDup_cons; [|exact (IH U)].
    intros H. apply Hr. apply in_map_iff in H. destruct H as (y & E & Hy).
    apply filter_In in Hy. rewrite <- E. apply in_map, Hy.
Qed.

(** X20.  The key stays a key: no handler introduces a second row with
    the same id, provided the database hands out an unused id on insert. *)
Lemma handlers_keep_unique_ids (a : Auth.t) (t : table) :
  unique_ids t ->
  (forall req d, ~ In (new_id d) (map Book.id t) ->
                 unique_ids (snd (BooksRoute.POST a req d t)))
  /\ (forall pathname, unique_ids (snd (BooksRoute.DELETE a pathname t)))
  /\ (forall i, unique_ids (snd (BookIdRoute.DELETE a i t)))
  /\ (forall i req, unique_ids (snd (BookIdRoute.PATCH a i req t))).
Proof.
  intros U. destruct (Auth.admitted a) as [sess|] eqn:A.
  2:{ destruct (unauthenticated_is_401 a A) as (_ & HP & HD & HI & HU).
      repeat split; intros; rewrite ?HP, ?HD, ?HI, ?HU; exact U. }
  unfold BooksRoute.POST, BooksRoute.DELETE, BookIdRoute.DELETE, BookIdRoute.PATCH.
  rewrite A. repeat split.
  - intros req d Hfresh.
    destruct req as [body|]; cbn [Js.bind Js.catch snd]; [|exact U].
    destruct (Js.get body "title") as [title|]; cbn [Js.bind Js.catch snd];
      [|exact U].
    destruct (Js.get body "author") as [author|]; cbn [Js.bind Js.catch snd];
      [|exact U].
    destruct (negb (Js.truthy title) || negb (Js.truthy author))%bool;
      cbn [Js.catch snd]; [exact U|].
    destruct (Js.get body "status") as [status|]; cbn [Js.bind Js.catch snd];
      [|exact U].
    destruct (negb (Js.includes statuses status)); cbn [Js.catch snd]; [exact U|].
    destruct (Js.call_trim title) as [tt|]; cbn [Js.bind Js.catch snd]; [|exact U].
    destruct (Js.call_trim author) as [ta|]; cbn [Js.bind Js.catch snd]; [|exact U].
    unfold insert_single, single. cbn [Js.catch snd].
    unfold unique_ids. rewrite map_app. cbn [map row_of Book.id].
    apply NoDup_app; [exact U | repeat constructor; intros [] | ].
    intros x Hx [<-|[]]. exact (Hfresh Hx).
  - intros pathname.
    destruct (negb (Js.truthy_str (Js.pop (Js.split "/" pathname))));
      cbn [Js.catch snd]; [exact U|].
    destruct (select_id_single _ t); cbn [Js.catch snd delete]; [|exact U].
    apply unique_ids_filter. exact U.
  - intros i. cbn [Js.catch snd delete]. apply unique_ids_filter. exact U.
  - intros i req.
    destruct req as [body|]; cbn [Js.bind Js.catch snd]; [|exact U].
    destruct (BookIdRoute.updates_of body) as [u|]; cbn [Js.bind Js.catch snd];
      [|exact U].
    destruct (BookIdRoute.no_keys u); cbn [Js.catch snd]; [exact U|].
    unfold update_single. destruct (single _) as [b|m]; cbn [Js.catch snd];
      [|exact U].
    unfold unique_ids. rewrite map_map.
    rewrite (map_ext _ Book.id); [exact U|].
    intros r. destruct (matches _ r); reflexivity.
Qed.

(** ** C1: records of other users *)

(** C1, as amended.  Let [R] be a stored record and [sess] a session with
    [R.user_id <> sess.user_id].  With the credentials of [sess]: no
    answer of [GET], whatever its parameters, holds [R]; a [PATCH] or a
    [DELETE /api/books/{id}] addressed to the id of [R] discloses no data
    of [R] and leaves every row of every other user, [R] included, as it
    was; and when ids are unique, those two requests leave the whole table
    as it was, and so does the collection-route [DELETE] with the id of
    [R] at the end of its path, which answers 404 "Book not found or
    unauthorized" (for a non-empty id). *)
Theorem C1_foreign_rows_protected (t : table) (sess : Session.t) (R : Book.t) :
  In R t ->
  Book.user_id R <> uid_of sess ->
  let a := Auth.signed_in sess in
  (forall status search,
     ~ In R (disclosed (BooksRoute.GET a status search t)))
  /\ (forall req,
        ~ In R (disclosed (fst (BookIdRoute.PATCH a (Book.id R) req t)))
        /\ rows_of_others (uid_of sess) (snd (BookIdRoute.PATCH a (Book.id R) req t))
           = rows_of_others (uid_of sess) t)
  /\ (disclosed (fst (BookIdRoute.DELETE a (Book.id R) t)) = []
      /\ rows_of_others (uid_of sess) (snd (BookIdRoute.DELETE a (Book.id R) t))
         = rows_of_others (uid_of sess) t)
  /\ (unique_ids t ->
      (forall req,
         disclosed (fst (BookIdRoute.PATCH a (Book.id R) req t)) = []
         /\ snd (BookIdRoute.PATCH a (Book.id R) req t) = t)
      /\ snd (BookIdRoute.DELETE a (Book.id R) t) = t
      /\ (forall pathname,
            Js.pop (Js.split "/" pathname) = Some (Book.id R) ->
            snd (BooksRoute.DELETE a pathname t) = t
            /\ disclosed (fst (BooksRoute.DELETE a pathname t)) = []
            /\ (Book.id R <> "" ->
                fst (BooksRoute.DELETE a pathname t)
                = json (error "Book not found or unauthorized") 404))).
Proof.
  intros HR Hne a. subst a.
  assert (owned_by (uid_of sess) R = false) as Hown
    by (apply String.eqb_neq; exact Hne).
  split; [|split; [|split]].
  - intros status search.
    destruct (GET_answers sess status search) as [(m & E)|(fs & E)];
      rewrite E; cbn [disclosed]; [intros []|].
    intros H. apply in_order_desc, filter_In in H. destruct H as [_ H].
    apply matches_owner in H. congruence.
  - intros req. rewrite PATCH_signed_in.
    destruct (body <- req ;; BookIdRoute.updates_of body) as [u|];
      [|split; [intros []| reflexivity]].
    destruct (BookIdRoute.no_keys u); [split; [intros []| reflexivity]|].
    destruct (update_single_scoped (uid_of sess) u (Book.id R) t) as [Hrows Hb].
    destruct (update_single u _ t) as [[b|m] t']; cbn [fst snd disclosed] in *.
    + split; [|exact Hrows].
      intros [->|[]]. rewrite (Hb R eq_refl) in Hown. discriminate.
    + split; [intros []| exact Hrows].
  - rewrite DELETE_id_signed_in. cbn [fst snd disclosed]. split; [reflexivity|].
    apply delete_scoped.
  - intros U.
    pose proof (lookup_foreign (uid_of sess) R t U HR Hown) as L.
    split; [|split].
    + intros req. rewrite PATCH_signed_in.
      destruct (body <- req ;; BookIdRoute.updates_of body) as [u|];
        [|split; reflexivity].
      destruct (BookIdRoute.no_keys u); [split; reflexivity|].
      unfold update_single. rewrite L. split; reflexivity.
    + rewrite DELETE_id_signed_in. unfold delete. cbn [snd].
      apply filter_none_negb. exact L.
    + intros pathname Hp. rewrite DELETE_collection_signed_in, Hp.
      unfold select_id_single. rewrite L. cbn [map single].
      destruct (String.eqb (Book.id R) "") eqn:E.
      * repeat split. intros Hid. apply String.eqb_eq in E. contradiction.
      * repeat split.
Qed.

(** The theorem at the sample shelf: Bob against Alice's "Dune". *)
Lemma C1_foreign_rows_protected_witness :
  In Sample.dune Sample.shelf
  /\ Book.user_id Sample.dune <> uid_of Sample.bob
  /\ unique_ids Sample.shelf
  /\ snd (BookIdRoute.DELETE (Auth.signed_in Sample.bob) "b1" Sample.shelf)
     = Sample.shelf.
Proof.
  assert (In Sample.dune Sample.shelf) as HR by (left; reflexivity).
  assert (Book.user_id Sample.dune <> uid_of Sample.bob) as Hne by discriminate.
  assert (unique_ids Sample.shelf) as U.
  { unfold unique_ids. simpl. repeat constructor; simpl; intuition discriminate. }
  split; [exact HR|]. split; [exact Hne|]. split; [exact U|].
  exact (proj1 (proj2 (proj2 (proj2 (proj2
           (C1_foreign_rows_protected Sample.shelf Sample.bob Sample.dune HR Hne)))
           U))).
Defined.

(** C1 as the specification words it fails on the sample shelf: with
    Bob's credentials and Alice's "Dune", none of the three requests
    yields the not-found/unauthorized outcome. [GET] answers 200 with
    Bob's own list, [PATCH] answers 500 and [DELETE] answers 200. *)
Lemma C1_counterexample :
  In Sample.dune Sample.shelf
  /\ Book.user_id Sample.dune <> uid_of Sample.bob
  /\ BooksRoute.GET (Auth.signed_in Sample.bob) None None Sample.shelf
     = json (books [Sample.emma]) 200
  /\ fst (BookIdRoute.PATCH (Auth.signed_in Sample.bob) (Book.id Sample.dune)
            (Js.Ok (Js.JObj [("title", Js.JStr "Mine")])) Sample.shelf)
     = json (error not_single_row) 500
  /\ fst (BookIdRoute.DELETE (Auth.signed_in Sample.bob) (Book.id Sample.dune)
            Sample.shelf)
     = json (message "Book deleted successfully") 200
  /\ ~ not_found_or_unauthorized
         (BooksRoute.GET (Auth.signed_in Sample.bob) None None Sample.shelf)
  /\ ~ not_found_or_unauthorized
         (fst (BookIdRoute.PATCH (Auth.signed_in Sample.bob) (Book.id Sample.dune)
                 (Js.Ok (Js.JObj [("title", Js.JStr "Mine")])) Sample.shelf))
  /\ ~ not_found_or_unauthorized
         (fst (BookIdRoute.DELETE (Auth.signed_in Sample.bob) (Book.id Sample.dune)
                 Sample.shelf)).
Proof.
  split; [left; reflexivity|]. split; [discriminate|].
  repeat split; try reflexivity;
    unfold not_found_or_unauthorized; vm_compute; intros [H|H]; discriminate.
Qed.

(** ** C2: the owner of a created record *)



(** Closes the branch of a case analysis in which the handler answered
    with an error and left the table alone. *)
Ltac rejected :=
  right; unfold internal_server_error; cbn [fst snd disclosed];
  split; [reflexivity|]; split; [reflexivity|];
  do 2 eexists; split; [reflexivity|]; auto.

(** Every outcome of an authenticated [POST]: either one row is appended,
    built from the trimmed fields, the session and the database defaults,
    and returned with 201; or the table is as before and the status is
    not 201. *)
Lemma POST_outcomes (sess : Session.t) (req : Js.result Js.json)
      (d : defaults) (t : table) :
  (exists b,
      BooksRoute.POST (Auth.signed_in sess) req d t
      = (json (book b) 201, (t ++ [b])%list)
      /\ Book.user_id b = uid_of sess
      /\ Book.id b = new_id d
      /\ Book.created_at b = now d
      /\ In (Book.status b) statuses
      /\ exists body title author,
           req = Js.Ok body
           /\ Js.get body "title" = Js.Ok (Some (Js.JStr title))
           /\ Js.get body "author" = Js.Ok (Some (Js.JStr author))
           /\ title <> "" /\ author <> ""
           /\ Book.title b = Js.trim title
           /\ Book.author b = Js.trim author)
  \/ (snd (BooksRoute.POST (Auth.signed_in sess) req d t) = t
      /\ disclosed (fst (BooksRoute.POST (Auth.signed_in sess) req d t)) = []
      /\ exists m c,
           fst (BooksRoute.POST (Auth.signed_in sess) req d t) = json (error m) c
           /\ (c = 400 \/ c = 500)%nat).
Proof.
  unfold BooksRoute.POST.
  cbn [Auth.admitted Auth.signed_in Auth.authError Auth.session].
  destruct req as [body|]; cbn [Js.bind Js.catch]; [|rejected].
  destruct (Js.get body "title") as [title|] eqn:Gt; cbn [Js.bind Js.catch];
    [|rejected].
  destruct (Js.get body "author") as [author|] eqn:Ga; cbn [Js.bind Js.catch];
    [|rejected].
  destruct (Js.truthy title) eqn:Tt; cbn [negb orb Js.catch]; [|rejected].
  destruct (Js.truthy author) eqn:Ta; cbn [negb orb Js.catch]; [|rejected].
  destruct (Js.get body "status") as [status|] eqn:Gs; cbn [Js.bind Js.catch];
    [|rejected].
  destruct (Js.includes statuses status) eqn:Is; cbn [negb Js.catch]; [|rejected].
  destruct title as [[| | |title| |]|]; cbn [Js.call_trim Js.bind Js.catch];
    try rejected.
  destruct author as [[| | |author| |]|]; cbn [Js.call_trim Js.bind Js.catch];
    try rejected.
  left. eexists. split; [reflexivity|]. cbn.
  repeat split.
  - destruct status as [[| | |st| |]|]; try discriminate.
    cbn in Is. cbn [text].
    destruct (String.eqb_spec st "reading"); [auto|].
    destruct (String.eqb_spec st "completed"); [auto|].
    destruct (String.eqb_spec st "wishlist"); [auto|]. discriminate.
  - exists body, title, author. repeat split; try assumption.
    + intros ->. discriminate.
    + intros ->. discriminate.
Qed.


(** Bob posts a body that names Alice as owner: the row is Bob's. *)
Example POST_spoofed_owner :
  BooksRoute.POST (Auth.signed_in Sample.bob) (Js.Ok Sample.spoofed_request)
                  Sample.fresh Sample.shelf
  = (json (book (Book.mk "b4" "bob" "Dune" "Herbert" "reading" 40)) 201,
     (Sample.shelf ++ [Book.mk "b4" "bob" "Dune" "Herbert" "reading" 40])%list).
Proof. reflexivity. Qed.

(** ** C9: create, then list *)

(** C9.  Let the timestamp the database assigns to a new row be later
    than [created_at] of every row the caller already has.  Then
    [POST {title:"Dune", author:"Herbert", status:"reading"}] answers 201
    with the stored Book, which carries the id and the [created_at] the
    database generated, and a [GET] without filters right after it
    answers 200 with that Book first, followed by the list the same [GET]
    gave before the creation. *)
Theorem C9_create_then_list (sess : Session.t) (d : defaults) (t : table) :
  (forall x, In x t -> Book.user_id x = uid_of sess ->
             Book.created_at x < now d) ->
  let b := Book.mk (new_id d) (uid_of sess) "Dune" "Herbert" "reading" (now d) in
  BooksRoute.POST (Auth.signed_in sess) (Js.Ok Sample.dune_request) d t
  = (json (book b) 201, (t ++ [b])%list)
  /\ exists rest,
       BooksRoute.GET (Auth.signed_in sess) None None t = json (books rest) 200
       /\ BooksRoute.GET (Auth.signed_in sess) None None (t ++ [b])%list
          = json (books (b :: rest)) 200.
Proof.
  intros Hnew b. split; [reflexivity|].
  eexists. split; [apply GET_without_search; reflexivity|].
  rewrite GET_without_search by reflexivity. do 2 f_equal.
  rewrite filter_app.
  assert (filter (matches (BooksRoute.query_of (uid_of sess) None)) [b] = [b]) as ->.
  { cbn. rewrite String.eqb_refl. reflexivity. }
  apply order_desc_newest. intros x Hx. apply filter_In in Hx.
  destruct Hx as [Hx Hm]. apply matches_owner in Hm.
  apply String.eqb_eq in Hm. cbn [Book.created_at b]. subst b. cbn. auto.
Qed.

Lemma C9_create_then_list_witness :
  hd_error
    (disclosed
       (BooksRoute.GET (Auth.signed_in Sample.alice) None None
          (snd (BooksRoute.POST (Auth.signed_in Sample.alice)
                  (Js.Ok Sample.dune_request) Sample.fresh Sample.shelf))))
  = Some (Book.mk "b4" "alice" "Dune" "Herbert" "reading" 40).
Proof.
  assert (forall x, In x Sample.shelf -> Book.user_id x = uid_of Sample.alice ->
                    Book.created_at x < now Sample.fresh) as H.
  { intros x [<-|[<-|[<-|[]]]] _; reflexivity. }
  destruct (C9_create_then_list Sample.alice Sample.fresh Sample.shelf H)
    as [HP (rest & _ & HG)].
  rewrite HP. cbn [snd]. rewrite HG. reflexivity.
Defined.

(** ** C6: validation of title and author *)

Section Trim.

Lemma trimEnd_idempotent (s : string) : Js.trimEnd (Js.trimEnd s) = Js.trimEnd s.
Proof.
  induction s as [|c s IH]; simpl; [reflexivity|].
  destruct (Js.trimEnd s) as [|a r] eqn:E.
  - destruct (Js.is_white_space c) eqn:W; simpl; rewrite ?W; reflexivity.
  - cbn [Js.trimEnd] in *. rewrite IH. reflexivity.
Qed.

Lemma trimStart_head (s : string) :
  Js.trimStart s = EmptyString
  \/ exists c r, Js.trimStart s = String c r /\ Js.is_white_space c = false.
Proof.
  induction s as [|c s IH]; simpl; [left; reflexivity|].
  destruct (Js.is_white_space c) eqn:W; [exact IH|].
  right. exists c, s. auto.
Qed.

Lemma trimEnd_head (c : ascii) (r : string) :
  Js.is_white_space c = false ->
  exists r', Js.trimEnd (String c r) = String c r'.
Proof.
  intros W. simpl. destruct (Js.trimEnd r); rewrite ?W; eauto.
Qed.

Lemma trim_head (s : string) :
  Js.trim s = EmptyString
  \/ exists c r, Js.trim s = String c r /\ Js.is_white_space c = false.
Proof.
  unfold Js.trim. destruct (trimStart_head s) as [->|(c & r & -> & W)].
  - left. reflexivity.
  - right. destruct (trimEnd_head c r W) as [r' E]. rewrite E. eauto.
Qed.

(** [trim] returns a string that has no blank left at either end. *)
Lemma trim_trimmed (s : string) : trimmed (Js.trim s).
Proof.
  unfold trimmed. destruct (trim_head s) as [E|(c & r & E & W)].
  - rewrite E. reflexivity.
  - unfold Js.trim at 1. rewrite E. cbn [Js.trimStart]. rewrite W.
    rewrite <- E. unfold Js.trim. apply trimEnd_idempotent.
Qed.

End Trim.

(** The part of C6 on [POST] that holds: a missing or empty [title] or
    [author] is answered 400 and no row is created. *)
Lemma POST_requires_title_and_author (sess : Session.t) (body : Js.json)
      (title author : Js.value) (d : defaults) (t : table) :
  Js.get body "title" = Js.Ok title ->
  Js.get body "author" = Js.Ok author ->
  Js.truthy title = false \/ Js.truthy author = false ->
  BooksRoute.POST (Auth.signed_in sess) (Js.Ok body) d t
  = (json (error "Title and author are required") 400, t).
Proof.
  intros Gt Ga H. unfold BooksRoute.POST.
  cbn [Auth.admitted Auth.signed_in Auth.authError Auth.session Js.bind].
  rewrite Gt, Ga. cbn [Js.bind].
  destruct H as [H|H]; rewrite H; cbn [negb orb];
    [|rewrite orb_true_r]; reflexivity.
Qed.

(** The part of C6 on [PATCH] that holds: an empty body is answered 400
    and no row is changed. *)
Lemma PATCH_empty_body (sess : Session.t) (i : string) (t : table) :
  BookIdRoute.PATCH (Auth.signed_in sess) i (Js.Ok (Js.JObj [])) t
  = (json (error "No valid fields to update") 400, t).
Proof. reflexivity. Qed.

(** The part of C6 on stored text that holds: what a successful [POST]
    stores as title and author is trimmed. *)
Lemma POST_stores_trimmed (sess : Session.t) (req : Js.result Js.json)
      (d : defaults) (t : table) (b : Book.t) :
  fst (BooksRoute.POST (Auth.signed_in sess) req d t) = json (book b) 201 ->
  trimmed (Book.title b) /\ trimmed (Book.author b).
Proof.
  intros H.
  destruct (POST_outcomes sess req d t)
    as [(b' & E & _ & _ & _ & _ & body & ti & au & _ & _ & _ & _ & _ & Ht & Ha)
       |(_ & _ & m & c & F & _)].
  - rewrite E in H. cbn in H. injection H as <-.
    rewrite Ht, Ha. split; apply trim_trimmed.
  - rewrite F in H. discriminate.
Qed.

(** C6 fails on the code where the text is made of blanks only: the
    emptiness test runs before [trim()].  [POST] with title ["   "]
    answers 201 and stores a Book whose title is empty; [PATCH] with the
    same title answers 200 and writes the empty title into the row. *)
Theorem C6_blank_title_is_stored :
  BooksRoute.POST (Auth.signed_in Sample.alice) (Js.Ok Sample.blank_title_request)
                  Sample.fresh Sample.shelf
  = (json (book (Book.mk "b4" "alice" "" "Herbert" "reading" 40)) 201,
     (Sample.shelf ++ [Book.mk "b4" "alice" "" "Herbert" "reading" 40])%list)
  /\ BookIdRoute.PATCH (Auth.signed_in Sample.alice) "b1"
       (Js.Ok (Js.JObj [("title", Js.JStr "   ")])) Sample.shelf
     = (json (book (Book.mk "b1" "alice" "" "Herbert" "reading" 10)) 200,
        [Book.mk "b1" "alice" "" "Herbert" "reading" 10; Sample.emma; Sample.ulysses]).
Proof. split; reflexivity. Qed.

(** ** C10: a status that [PATCH] does not recognise *)

(** The [updates] object built from a well-typed body. *)
Lemma updates_of_patch_body (r : UpdateBookRequest) :
  BookIdRoute.updates_of (patch_body r)
  = Js.Ok {| u_title := kept_text (upd_title r);
             u_author := kept_text (upd_author r);
             u_status := if Js.includes statuses (upd_status r)
                         then Some (text (upd_status r)) else None |}.
Proof.
  destruct r as [[[|c1 s1]|] [[|c2 s2]|] [[| b | n | [|c3 s3] | l | f]|]].
  all: unfold patch_body, BookIdRoute.updates_of, BookIdRoute.trimmed_field.
  all: cbn [upd_title upd_author upd_status option_map field app Js.get
            Js.lookup Js.bind String.eqb Ascii.eqb Bool.eqb Js.truthy
            Js.call_trim negb kept_text andb].
  all: try reflexivity.
  all: try (destruct b; reflexivity).
  all: destruct (n =? 0); reflexivity.
Qed.

(** An unrecognised status never touches the [status] column. *)
Lemma update_without_status (u : updates) (fs : list clause) (t : table) :
  u_status u = None ->
  map Book.status (snd (update_single u fs t)) = map Book.status t.
Proof.
  intros Hu. unfold update_single.
  destruct (single _) as [b|m]; cbn [snd]; [|reflexivity].
  rewrite map_map. apply map_ext. intros x.
  destruct (matches fs x); [|reflexivity].
  unfold apply_updates. cbn [Book.status]. rewrite Hu. reflexivity.
Qed.

(** C10.  In an authenticated [PATCH /api/books/{id}] whose [status] is
    absent or is not one of [reading], [completed], [wishlist], the status
    is dropped without complaint: the answer is the one the same body
    without [status] would get.  If [title] or [author] is a non-empty
    string, the update goes ahead with those fields only (200 with the
    updated Book, or 500 when the id and owner select no single row) and
    no row changes its status.  If both are absent or empty, the answer
    is 400 "No valid fields to update" and the table is as before.
    And no [PATCH] at all is ever answered 400 "Invalid status". *)
Theorem C10_patch_invalid_status_dropped
        (sess : Session.t) (i : string) (r : UpdateBookRequest) (t : table) :
  Js.includes statuses (upd_status r) = false ->
  let a := Auth.signed_in sess in
  let kept := {| u_title := kept_text (upd_title r);
                 u_author := kept_text (upd_author r);
                 u_status := None |} in
  BookIdRoute.PATCH a i (Js.Ok (patch_body r)) t
  = BookIdRoute.PATCH a i
      (Js.Ok (patch_body {| upd_title := upd_title r;
                            upd_author := upd_author r;
                            upd_status := None |})) t
  /\ ((kept_text (upd_title r) <> None \/ kept_text (upd_author r) <> None) ->
      BookIdRoute.PATCH a i (Js.Ok (patch_body r)) t
      = match update_single kept [Eq col_id i; Eq col_user_id (uid_of sess)] t with
        | (Data b, t') => (json (book b) 200, t')
        | (Error m, t') => (json (error m) 500, t')
        end
      /\ map Book.status (snd (BookIdRoute.PATCH a i (Js.Ok (patch_body r)) t))
         = map Book.status t)
  /\ (kept_text (upd_title r) = None -> kept_text (upd_author r) = None ->
      BookIdRoute.PATCH a i (Js.Ok (patch_body r)) t
      = (json (error "No valid fields to update") 400, t))
  /\ (forall a' i' req t',
        fst (BookIdRoute.PATCH a' i' req t') <> json (error "Invalid status") 400).
Proof.
  intros Hs a kept. subst a.
  assert (BookIdRoute.updates_of (patch_body r) = Js.Ok kept) as Hu
    by (rewrite updates_of_patch_body, Hs; reflexivity).
  split; [|split; [|split]].
  - rewrite !PATCH_signed_in. cbn [Js.bind].
    rewrite Hu, updates_of_patch_body. reflexivity.
  - intros Hk. rewrite PATCH_signed_in. cbn [Js.bind]. rewrite Hu.
    assert (BookIdRoute.no_keys kept = false) as ->.
    { unfold BookIdRoute.no_keys, kept. cbn [u_title u_author u_status].
      destruct (kept_text (upd_title r)), (kept_text (upd_author r));
        try reflexivity.
      destruct Hk; congruence. }
    split; [reflexivity|].
    pose proof (update_without_status kept
                  [Eq col_id i; Eq col_user_id (uid_of sess)] t eq_refl) as M.
    destruct (update_single kept _ t) as [[b|m] t']; exact M.
  - intros Ht Ha. rewrite PATCH_signed_in. cbn [Js.bind]. rewrite Hu.
    unfold BookIdRoute.no_keys, kept. cbn [u_title u_author u_status].
    rewrite Ht, Ha. reflexivity.
  - intros a' i' req t'. unfold BookIdRoute.PATCH.
    destruct (Auth.admitted a') as [s|]; [|discriminate].
    destruct req as [body|]; cbn [Js.bind Js.catch]; [|discriminate].
    destruct (BookIdRoute.updates_of body) as [u|]; cbn [Js.bind Js.catch];
      [|discriminate].
    destruct (BookIdRoute.no_keys u); cbn [Js.catch fst]; [discriminate|].
    destruct (update_single u _ t') as [[b|m] t'']; cbn [Js.catch fst]; discriminate.
Qed.

(** Alice renames her "Dune" and sends a status the API does not know:
    the title changes, the status stays. *)
Lemma C10_patch_invalid_status_dropped_witness :
  BookIdRoute.PATCH (Auth.signed_in Sample.alice) "b1"
    (Js.Ok (patch_body {| upd_title := Some "Dune Messiah";
                          upd_author := None;
                          upd_status := Some (Js.JStr "abandoned") |}))
    Sample.shelf
  = (json (book (Book.mk "b1" "alice" "Dune Messiah" "Herbert" "reading" 10)) 200,
     [Book.mk "b1" "alice" "Dune Messiah" "Herbert" "reading" 10;
      Sample.emma; Sample.ulysses]).
Proof.
  pose proof (C10_patch_invalid_status_dropped Sample.alice "b1"
                {| upd_title := Some "Dune Messiah";
                   upd_author := None;
                   upd_status := Some (Js.JStr "abandoned") |}
                Sample.shelf eq_refl) as H.
  cbv zeta in H. destruct H as (_ & H & _).
  assert (kept_text (Some "Dune Messiah") <> None) as K by discriminate.
  rewrite (proj1 (H (or_introl K))). vm_compute. reflexivity.
Defined.

(** ** C7: the status filter of [GET] *)

Lemma includes_str_In (arr : list string) (s : string) :
  Js.includes_str arr s = true <-> In s arr.
Proof.
  unfold Js.includes_str. rewrite existsb_exists. split.
  - intros (x & Hx & E). apply String.eqb_eq in E. subst. exact Hx.
  - intros H. exists s. split; [exact H | apply String.eqb_refl].
Qed.

Lemma status_clause_valid (st : string) :
  In st statuses -> BooksRoute.status_clause (Some st) = [Eq col_status st].
Proof.
  intros [<-|[<-|[<-|[]]]]; reflexivity.
Qed.

Lemma status_clause_invalid (st : string) :
  ~ In st statuses -> BooksRoute.status_clause (Some st) = [].
Proof.
  intros H. unfold BooksRoute.status_clause.
  destruct (Js.includes_str statuses st) eqn:E.
  - apply includes_str_In in E. contradiction.
  - rewrite andb_false_r. reflexivity.
Qed.

Lemma matches_app (fs gs : list clause) (b : Book.t) :
  matches (fs ++ gs) b = (matches fs b && matches gs b)%bool.
Proof. unfold matches. apply forallb_app. Qed.

(** C7.  In an authenticated [GET /api/books] with [status=st]:
    if [st] is one of [reading], [completed], [wishlist], the answer is
    200 with exactly the caller's books of that status, newest first,
    when there is no search text; and whenever the same request without
    [status] is answered with a list, as it is for a plain search text,
    the answer is 200 with exactly the books of that list that have that
    status.  If [st] is anything else, the answer is the one the request
    without [status] gets.  The status is 200 when there is no search
    text or a plain one, and it is never 400. *)
Theorem C7_status_filter (sess : Session.t) (st : string)
        (search : option string) (t : table) :
  let a := Auth.signed_in sess in
  (In st statuses ->
     (Js.truthy_str search = false ->
        BooksRoute.GET a (Some st) search t
        = json (books (order_desc
                  (filter (fun b => (owned_by (uid_of sess) b
                                     && String.eqb (Book.status b) st)%bool) t)))
               200)
     /\ (forall l,
           BooksRoute.GET a None search t = json (books l) 200 ->
           BooksRoute.GET a (Some st) search t
           = json (books (filter (fun b => String.eqb (Book.status b) st) l)) 200)
     /\ (plain_search search = true ->
           exists l, BooksRoute.GET a None search t = json (books l) 200))
  /\ (~ In st statuses ->
        BooksRoute.GET a (Some st) search t = BooksRoute.GET a None search t)
  /\ (plain_search search = true ->
        status_of (BooksRoute.GET a (Some st) search t) = Some 200%nat)
  /\ status_of (BooksRoute.GET a (Some st) search t) <> Some 400%nat.
Proof.
  intros a. subst a. split; [|split; [|split]].
  - intros Hst. split; [|split].
    + intros Hq. rewrite GET_without_search by exact Hq. do 3 f_equal.
      apply filter_ext. intros b.
      unfold BooksRoute.query_of. rewrite status_clause_valid by exact Hst.
      unfold matches, owned_by. cbn. rewrite !andb_true_r. reflexivity.
    + intros l. rewrite !GET_signed_in.
      destruct (or_clause (BooksRoute.search_filter search)) as [c|m];
        [|discriminate].
      intros [= <-]. do 2 f_equal.
      rewrite filter_order_desc. f_equal.
      rewrite filter_filter_and. apply filter_ext. intros b.
      unfold BooksRoute.query_of. rewrite status_clause_valid by exact Hst.
      unfold matches. cbn [BooksRoute.status_clause app forallb holds cell].
      destruct (String.eqb (Book.user_id b) (uid_of sess)),
               (String.eqb (Book.status b) st),
               (forallb (fun f => holds f b) c); reflexivity.
    + apply GET_plain_search.
  - intros Hst. rewrite !GET_signed_in. unfold BooksRoute.query_of.
    rewrite status_clause_invalid by exact Hst. reflexivity.
  - intros Hp. destruct (GET_plain_search sess (Some st) search t Hp) as [l ->].
    reflexivity.
  - destruct (GET_answers sess (Some st) search) as [(m & E)|(fs & E)];
      rewrite E; discriminate.
Qed.

(** Alice asks for her wishlist and for a status that does not exist. *)
Lemma C7_status_filter_witness :
  BooksRoute.GET (Auth.signed_in Sample.alice) (Some "wishlist") None Sample.shelf
  = json (books [Sample.ulysses]) 200
  /\ BooksRoute.GET (Auth.signed_in Sample.alice) (Some "foo") None Sample.shelf
     = json (books [Sample.ulysses; Sample.dune]) 200.
Proof.
  pose proof (C7_status_filter Sample.alice "wishlist" None Sample.shelf) as V.
  pose proof (C7_status_filter Sample.alice "foo" None Sample.shelf) as I.
  cbv zeta in V, I.
  destruct V as (V & _). destruct I as (_ & I & _).
  assert (In "wishlist" statuses) as Hv by (right; right; left; reflexivity).
  assert (~ In "foo" statuses) as Hi by (intros [H|[H|[H|[]]]]; discriminate).
  split.
  - rewrite (proj1 (V Hv) eq_refl). vm_compute. reflexivity.
  - rewrite (I Hi). vm_compute. reflexivity.
Defined.

(** ** C8: the search filter of [GET] *)

Section Ilike.

Lemma chars_app (s1 s2 : string) : chars (s1 ++ s2) = (chars s1 ++ chars s2)%list.
Proof.
  unfold chars. induction s1 as [|c s1 IH]; simpl; [reflexivity|].
  rewrite IH. reflexivity.
Qed.

Lemma plain_inv (c : ascii) :
  plain c = true ->
  Ascii.eqb c "*" = false /\ Ascii.eqb c "\" = false
  /\ Ascii.eqb c "%" = false /\ Ascii.eqb c "_" = false.
Proof.
  unfold plain. cbn [existsb app]. intros H. apply negb_true_iff in H.
  repeat (apply orb_false_iff in H; destruct H as [? H]).
  auto.
Qed.

(** A plain text is a pattern that stands for itself. *)
Lemma parse_like_plain (cs rest : list ascii) :
  forallb plain cs = true ->
  parse_like false (map star (cs ++ rest))
  = (map Lit cs ++ parse_like false (map star rest))%list.
Proof.
  induction cs as [|c cs IH]; cbn [forallb map app]; intros H.
  - reflexivity.
  - apply andb_true_iff in H. destruct H as [Hc H].
    destruct (plain_inv c Hc) as (H1 & H2 & H3 & H4).
    unfold star at 1. rewrite H1. cbn [parse_like].
    rewrite H2, H3, H4, IH by exact H. reflexivity.
Qed.

Lemma like_any (p : list token) (s : list ascii) :
  like (Any :: p) s
  = (like p s || match s with
                 | [] => false
                 | _ :: s' => like (Any :: p) s'
                 end)%bool.
Proof. destruct s; reflexivity. Qed.

Lemma like_any_iff (p : list token) (s : list ascii) :
  like (Any :: p) s = true
  <-> exists pre suf, s = (pre ++ suf)%list /\ like p suf = true.
Proof.
  induction s as [|x s IH]; rewrite like_any.
  - rewrite orb_false_r. split.
    + intros H. exists [], []. auto.
    + intros (pre & suf & E & H). symmetry in E.
      apply app_eq_nil in E. destruct E as [_ ->]. exact H.
  - rewrite orb_true_iff, IH. split.
    + intros [H|(pre & suf & -> & H)].
      * exists [], (x :: s). auto.
      * exists (x :: pre), suf. auto.
    + intros (pre & suf & E & H). destruct pre as [|y pre]; cbn in E.
      * left. subst suf. exact H.
      * right. injection E as _ ->. eauto.
Qed.

Lemma like_lits_any (cs s : list ascii) :
  like (map Lit cs ++ [Any]) s = true
  <-> exists post, map lower s = (map lower cs ++ post)%list.
Proof.
  revert s. induction cs as [|c cs IH]; intros s; cbn [map app].
  - split; [intros _; exists (map lower s); reflexivity | intros _].
    induction s as [|x s IHs]; rewrite like_any; [reflexivity|].
    rewrite IHs. apply orb_true_r.
  - cbn [like]. destruct s as [|x s]; cbn [map].
    + split; [discriminate | intros (post & E); discriminate].
    + rewrite andb_true_iff, IH. unfold ci_eqb. rewrite Ascii.eqb_eq. split.
      * intros (E & post & H). exists post. cbn. congruence.
      * intros (post & H). cbn in H. injection H as E H. eauto.
Qed.

(** On a plain search text, [ILIKE %text%] is containment without case. *)
Lemma ilike_contains (q text : string) :
  forallb plain (chars q) = true ->
  ilike (BooksRoute.pattern_of q) text = true <-> contains_ci q text.
Proof.
  intros Hq. unfold ilike, BooksRoute.pattern_of, contains_ci.
  fold (chars ("%" ++ q ++ "%")) (chars text).
  rewrite !chars_app.
  change (chars "%") with ["%"%char].
  cbn [app map parse_like]. change (star "%") with "%"%char.
  cbn [Ascii.eqb Bool.eqb andb].
  rewrite parse_like_plain by exact Hq.
  change (parse_like false (map star ["%"%char])) with [Any].
  rewrite like_any_iff. split.
  - intros (pre & suf & E & H). apply like_lits_any in H.
    destruct H as (post & H). exists (map lower pre), post.
    rewrite E, map_app, H. reflexivity.
  - intros (pre & post & E). apply map_eq_app in E.
    destruct E as (l1 & l2 & E & _ & H2). exists l1, l2. split; [exact E|].
    apply like_lits_any. exists post. exact H2.
Qed.

End Ilike.

(** The part of C8 that holds.  When the search text is non-empty and
    made of plain ASCII characters, the list [GET] returns holds exactly
    the caller's books whose title or author contains it without regard
    to case; an empty search text is no filter at all. *)
Lemma GET_search_plain (sess : Session.t) (q : string) (t : table) :
  q <> "" ->
  forallb plain (chars q) = true ->
  ascii_text q = true ->
  exists l,
    BooksRoute.GET (Auth.signed_in sess) None (Some q) t = json (books l) 200
    /\ forall b,
         In b l <->
         In b t /\ Book.user_id b = uid_of sess
         /\ (contains_ci q (Book.title b) \/ contains_ci q (Book.author b)).
Proof.
  intros Hne Hq _. destruct (plain_text_reads q Hq) as [Hc Hp].
  eexists. split; [apply GET_with_search; assumption|].
  intros b. rewrite in_order_desc, filter_In.
  unfold BooksRoute.query_of, BooksRoute.status_clause.
  unfold matches. cbn [app forallb holds existsb satisfies cell].
  rewrite !andb_true_r, orb_false_r, andb_true_iff, orb_true_iff.
  rewrite String.eqb_eq, !ilike_contains by exact Hq. tauto.
Qed.

(** A search text that PostgREST cannot read makes the query fail, and
    [GET] passes the failure on as a 500. *)
Example GET_unreadable_search :
  BooksRoute.GET (Auth.signed_in Sample.alice) None (Some "e,J") Sample.shelf
  = json (error parse_error) 500.
Proof. vm_compute. reflexivity. Qed.

Lemma GET_empty_search (a : Auth.t) (status : option string) (t : table) :
  BooksRoute.GET a status (Some "") t = BooksRoute.GET a status None t.
Proof. reflexivity. Qed.

(** C8 fails on the code for a search text that holds a LIKE
    metacharacter, which [GET] puts into the pattern as it is.  With
    [search=_] Alice gets both her books, and neither title nor author
    of either contains an underscore. *)
Theorem C8_wildcard_in_search :
  BooksRoute.GET (Auth.signed_in Sample.alice) None (Some "_") Sample.shelf
  = json (books [Sample.ulysses; Sample.dune]) 200
  /\ forall b, In b [Sample.ulysses; Sample.dune] ->
               ~ contains_ci "_" (Book.title b) /\ ~ contains_ci "_" (Book.author b).
Proof.
  split; [vm_compute; reflexivity|].
  assert (forall text : string,
             ~ In "_"%char (map lower (chars text)) -> ~ contains_ci "_" text) as N.
  { intros text H (pre & post & E). apply H. rewrite E.
    apply in_or_app. right. left. reflexivity. }
  intros b [<-|[<-|[]]]; split; apply N; vm_compute; intuition discriminate.
Qed.

(** ** C5: the policy of the middleware *)

Section Prefixes.

Lemma prefix_refl (s : string) : String.prefix s s = true.
Proof.
  induction s as [|c s IH]; simpl; [reflexivity|].
  destruct (ascii_dec c c); [exact IH | contradiction].
Qed.

Lemma prefix_app_l (a b p : string) :
  String.prefix (a ++ b) p = true -> String.prefix a p = true.
Proof.
  revert p. induction a as [|c a IH]; intros p; destruct p as [|x p]; simpl;
    try reflexivity; try discriminate.
  destruct (ascii_dec c x); [apply IH | discriminate].
Qed.

(** Two prefixes of one string: one is a prefix of the other. *)
Lemma prefix_comparable (a b p : string) :
  String.prefix a p = true -> String.prefix b p = true ->
  String.prefix a b = true \/ String.prefix b a = true.
Proof.
  revert a b. induction p as [|x p IH]; intros a b.
  - destruct a; [intros _ _; left; destruct b; reflexivity | discriminate].
  - destruct a as [|c a]; [intros _ _; left; destruct b; reflexivity|].
    destruct b as [|c' b]; [intros _ _; right; reflexivity|].
    simpl. destruct (ascii_dec c x) as [->|]; [|discriminate].
    destruct (ascii_dec c' x) as [->|]; [|discriminate].
    destruct (ascii_dec x x); [apply IH | contradiction].
Qed.

Lemma under_startsWith (base p : string) :
  Middleware.under base p = true -> Js.startsWith p base = true.
Proof.
  unfold Middleware.under, Js.startsWith. intros H.
  apply orb_true_iff in H. destruct H as [H|H].
  - apply String.eqb_eq in H. subst. apply prefix_refl.
  - eapply prefix_app_l. exact H.
Qed.

(** Below one base, the path does not start with another. *)
Lemma under_excludes (base other p : string) :
  String.prefix base other = false -> String.prefix other base = false ->
  Middleware.under base p = true -> Js.startsWith p other = false.
Proof.
  intros H1 H2 U. apply under_startsWith in U. unfold Js.startsWith in *.
  destruct (String.prefix other p) eqn:E; [|reflexivity].
  destruct (prefix_comparable base other p U E); congruence.
Qed.

(** A path that is one of the three prefixes or lies below it starts
    with that prefix and with neither of the other two. *)
Lemma startsWith_under (base other p : string) :
  In base ["/dashboard"; "/auth"; "/api"] ->
  In other ["/dashboard"; "/auth"; "/api"] ->
  Middleware.under base p = true ->
  Js.startsWith p other = String.eqb other base.
Proof.
  intros Hb Ho U.
  destruct Hb as [<-|[<-|[<-|[]]]]; destruct Ho as [<-|[<-|[<-|[]]]];
    match type of U with
    | Middleware.under ?b _ = true =>
        match goal with
        | |- Js.startsWith _ ?o = _ =>
            first [ rewrite (under_startsWith b p U); reflexivity
                  | rewrite (under_excludes b o p eq_refl eq_refl U); reflexivity ]
        end
    end.
Qed.

Lemma passes_through (calls : list Middleware.cookie_call) (r : NextResponse.t) :
  (exists c, r = next c) ->
  exists c, fold_left Middleware.on_cookie calls r = next c.
Proof.
  revert r. induction calls as [|k calls IH]; intros r H; [exact H|].
  simpl. apply IH. destruct k; eexists; reflexivity.
Qed.

End Prefixes.

(** C5, as amended.  On whatever pathname it is called with, the
    middleware answers by the test [pathname.startsWith(prefix)]: without
    a session, a pathname that starts with [/dashboard] is redirected to
    [/auth/login] and one that starts with [/api] is answered 401
    [{error: "Unauthorized"}]; with a session, a pathname that starts
    with [/auth] is redirected to [/dashboard]; every other request
    passes through.  On a pathname that is one of the three prefixes or
    lies below it, the test finds that prefix and neither of the other
    two. *)
Theorem C5_middleware_policy (calls : list Middleware.cookie_call)
        (session : option Session.t) (pathname : string) :
  let out := Middleware.middleware calls session pathname in
  (session = None -> Js.startsWith pathname "/dashboard" = true ->
     out = redirect "/auth/login")
  /\ (session = None -> Js.startsWith pathname "/api" = true ->
        out = json (error "Unauthorized") 401)
  /\ (session <> None -> Js.startsWith pathname "/auth" = true ->
        out = redirect "/dashboard")
  /\ ((session = None /\ Js.startsWith pathname "/dashboard" = false
                      /\ Js.startsWith pathname "/api" = false)
      \/ (session <> None /\ Js.startsWith pathname "/auth" = false) ->
        exists cookie, out = next cookie)
  /\ (forall base other,
        In base ["/dashboard"; "/auth"; "/api"] ->
        In other ["/dashboard"; "/auth"; "/api"] ->
        Middleware.under base pathname = true ->
        Js.startsWith pathname other = String.eqb other base).
Proof.
  intros out. subst out. unfold Middleware.middleware.
  split; [|split; [|split; [|split]]].
  - intros -> ->. reflexivity.
  - intros -> Hi. rewrite Hi.
    destruct (Js.startsWith pathname "/dashboard") eqn:Hd; [|reflexivity].
    unfold Js.startsWith in *.
    destruct (prefix_comparable "/dashboard" "/api" pathname Hd Hi); discriminate.
  - intros Hs ->. destruct session; [reflexivity | contradiction].
  - intros [(-> & Hd & Hi)|[Hs Ha]].
    + rewrite Hd, Hi. cbn [negb andb]. apply passes_through. eauto.
    + destruct session; [|contradiction]. rewrite Ha. cbn [negb andb].
      apply passes_through. eauto.
  - intros base other. apply startsWith_under.
Qed.

(** An anonymous request for a dashboard page is sent to the login
    page. *)
Lemma C5_middleware_policy_witness :
  Js.startsWith "/dashboard/books" "/dashboard" = true
  /\ Middleware.middleware [] None "/dashboard/books" = redirect "/auth/login".
Proof.
  assert (Js.startsWith "/dashboard/books" "/dashboard" = true) as Hp
    by (vm_compute; reflexivity).
  split; [exact Hp|].
  exact (proj1 (C5_middleware_policy [] None "/dashboard/books") eq_refl Hp).
Defined.

(** C5 as the specification words it fails: the prefix test is not
    exact.  [/dashboardxjson] and [/api.json] are no prefix and lie below
    none, and they reach the middleware, because the regular expression
    Next compiles from an entry such as [/dashboard/:path*] ends in an
    optional [(.json)] whose dot stands for any character; the
    middleware treats them as a dashboard page and an API path.  So it
    does [/dashboardfoo], on which the matcher would not call it. *)
Lemma C5_counterexample :
  Middleware.under "/dashboard" "/dashboardxjson" = false
  /\ Middleware.middleware [] None "/dashboardxjson" = redirect "/auth/login"
  /\ Middleware.under "/api" "/api.json" = false
  /\ Middleware.middleware [] None "/api.json" = json (error "Unauthorized") 401
  /\ Middleware.under "/dashboard" "/dashboardfoo" = false
  /\ Middleware.middleware [] None "/dashboardfoo" = redirect "/auth/login".
Proof. vm_compute. repeat split. Qed.

(** ** C3: [PATCH] on a record that is missing or somebody else's *)

(** What holds of C3: when the id and the caller select no row, whether
    because no row has that id or because the row is another user's, the
    answer is one and the same and the table is untouched.  That answer
    is PostgREST's error passed on as a 500. *)
Lemma PATCH_no_such_row (sess : Session.t) (i : string) (body : Js.json)
      (u : updates) (t : table) :
  BookIdRoute.updates_of body = Js.Ok u ->
  BookIdRoute.no_keys u = false ->
  filter (matches [Eq col_id i; Eq col_user_id (uid_of sess)]) t = [] ->
  BookIdRoute.PATCH (Auth.signed_in sess) i (Js.Ok body) t
  = (json (error not_single_row) 500, t).
Proof.
  intros Hu Hk Hf. rewrite PATCH_signed_in. cbn [Js.bind].
  rewrite Hu, Hk. unfold update_single. rewrite Hf. reflexivity.
Qed.

(** C3 fails on the code: with a valid, non-empty body, Bob's [PATCH] of
    Alice's "Dune" and his [PATCH] of an id that does not exist both get
    status 500 with PostgREST's message, which is neither 401 nor 404.
    The table is left as it was. *)
Theorem C3_patch_missing_row_is_500 :
  BookIdRoute.PATCH (Auth.signed_in Sample.bob) "b1"
    (Js.Ok (Js.JObj [("title", Js.JStr "Mine")])) Sample.shelf
  = (json (error not_single_row) 500, Sample.shelf)
  /\ BookIdRoute.PATCH (Auth.signed_in Sample.bob) "no-such-id"
       (Js.Ok (Js.JObj [("title", Js.JStr "Mine")])) Sample.shelf
     = (json (error not_single_row) 500, Sample.shelf)
  /\ ~ not_found_or_unauthorized
         (fst (BookIdRoute.PATCH (Auth.signed_in Sample.bob) "b1"
                 (Js.Ok (Js.JObj [("title", Js.JStr "Mine")])) Sample.shelf)).
Proof.
  split; [vm_compute; reflexivity|]. split; [vm_compute; reflexivity|].
  unfold not_found_or_unauthorized. vm_compute. intros [H|H]; discriminate.
Qed.

(** ** C4: repeating a [DELETE] *)

(** What holds of C4, the collection route: a [DELETE] whose trailing id
    selects no row of the caller is answered 404 and changes nothing, so
    repeating it gives the same 404. *)
Lemma DELETE_collection_not_found (sess : Session.t) (pathname i : string)
      (t : table) :
  Js.pop (Js.split "/" pathname) = Some i ->
  i <> "" ->
  filter (matches [Eq col_id i; Eq col_user_id (uid_of sess)]) t = [] ->
  BooksRoute.DELETE (Auth.signed_in sess) pathname t
  = (json (error "Book not found or unauthorized") 404, t).
Proof.
  intros Hp Hi Hf. rewrite DELETE_collection_signed_in, Hp.
  apply String.eqb_neq in Hi. rewrite Hi.
  unfold select_id_single. rewrite Hf. reflexivity.
Qed.

(** And once that route has deleted a row, the same request again is
    answered 404. *)
Lemma DELETE_collection_twice (sess : Session.t) (pathname : string) (t : table) :
  fst (BooksRoute.DELETE (Auth.signed_in sess) pathname t) = json success 200 ->
  BooksRoute.DELETE (Auth.signed_in sess) pathname
    (snd (BooksRoute.DELETE (Auth.signed_in sess) pathname t))
  = (json (error "Book not found or unauthorized") 404,
     snd (BooksRoute.DELETE (Auth.signed_in sess) pathname t)).
Proof.
  rewrite (DELETE_collection_signed_in sess pathname t).
  destruct (Js.pop (Js.split "/" pathname)) as [i|] eqn:Hp; [|discriminate].
  destruct (String.eqb i "") eqn:Hi; [discriminate|].
  destruct (select_id_single _ t); [|discriminate].
  intros _. cbn [snd]. apply DELETE_collection_not_found with (i := i).
  - exact Hp.
  - apply String.eqb_neq. exact Hi.
  - unfold delete. cbn [snd].
    destruct (filter _ (filter _ t)) as [|b rest] eqn:F; [reflexivity|].
    assert (In b (b :: rest)) as H by (left; reflexivity).
    rewrite <- F in H. apply filter_In in H. destruct H as [H Hm].
    apply filter_In in H. destruct H as [_ Hn].
    rewrite matches_id_owner in Hm. apply andb_true_iff in Hm.
    destruct Hm as [Hid _]. unfold matches in Hn. cbn in Hn.
    rewrite Hid in Hn. discriminate.
Qed.

(** C4 fails on the code for [DELETE /api/books/{id}]: Alice's [DELETE]
    of an id that denotes no record is answered 200 "Book deleted
    successfully", not the not-found outcome, and so is the repetition;
    after she has deleted her "Dune", deleting it again is answered 200
    as well. *)
Theorem C4_delete_by_id_never_not_found :
  BookIdRoute.DELETE (Auth.signed_in Sample.alice) "no-such-id" Sample.shelf
  = (json (message "Book deleted successfully") 200, Sample.shelf)
  /\ BookIdRoute.DELETE (Auth.signed_in Sample.alice) "no-such-id"
       (snd (BookIdRoute.DELETE (Auth.signed_in Sample.alice) "no-such-id"
               Sample.shelf))
     = (json (message "Book deleted successfully") 200, Sample.shelf)
  /\ BookIdRoute.DELETE (Auth.signed_in Sample.alice) "b1" Sample.shelf
     = (json (message "Book deleted successfully") 200,
        [Sample.emma; Sample.ulysses])
  /\ BookIdRoute.DELETE (Auth.signed_in Sample.alice) "b1"
       [Sample.emma; Sample.ulysses]
     = (json (message "Book deleted successfully") 200,
        [Sample.emma; Sample.ulysses])
  /\ ~ not_found_or_unauthorized
         (fst (BookIdRoute.DELETE (Auth.signed_in Sample.alice) "no-such-id"
                 Sample.shelf)).
Proof.
  repeat split; try (vm_compute; reflexivity).
  unfold not_found_or_unauthorized. vm_compute. intros [H|H]; discriminate.
Qed.

(** The collection route at the same inputs answers 404 both times. *)
Example DELETE_collection_sample :
  BooksRoute.DELETE (Auth.signed_in Sample.alice) "/api/books/no-such-id"
                    Sample.shelf
  = (json (error "Book not found or unauthorized") 404, Sample.shelf).
Proof. vm_compute. reflexivity. Qed.

(* ================================================================== *)
(** * Further properties of the code *)

(** ** middleware.ts on its own *)

(** X1.  When the middleware lets a request through, the response carries
    the cookie of the last [set] or [remove] call only: every call replaces
    [response] by a fresh [NextResponse.next()], so what earlier calls set
    is not on it. *)
Theorem X1_last_cookie_only (calls : list Middleware.cookie_call)
        (c : Middleware.cookie_call) (session : option Session.t)
        (pathname : string) (cookie : option (string * string)) :
  Middleware.middleware (calls ++ [c]) session pathname = next cookie ->
  cookie = match c with
           | Middleware.set name value => Some (name, value)
           | Middleware.remove name => Some (name, "")
           end.
Proof.
  unfold Middleware.middleware. rewrite fold_left_app. cbn [fold_left].
  destruct (negb _ && Js.startsWith pathname "/dashboard")%bool; [discriminate|].
  destruct (negb _ && Js.startsWith pathname "/api")%bool; [discriminate|].
  destruct (_ && Js.startsWith pathname "/auth")%bool; [discriminate|].
  destruct c; cbn [Middleware.on_cookie]; congruence.
Qed.

(** Two cookies are written for a signed-in request: only the second is
    on the response. *)
Lemma X1_last_cookie_only_witness :
  Middleware.middleware
    ([Middleware.set "sb-access" "t1"] ++ [Middleware.set "sb-refresh" "t2"])
    (Some Sample.alice) "/dashboard"
  = next (Some ("sb-refresh", "t2"))
  /\ Some ("sb-refresh", "t2") = Some ("sb-refresh", "t2").
Proof.
  split; [vm_compute; reflexivity|].
  apply (X1_last_cookie_only [Middleware.set "sb-access" "t1"]
           (Middleware.set "sb-refresh" "t2") (Some Sample.alice) "/dashboard").
  vm_compute. reflexivity.
Defined.

(** X2.  A redirect of the middleware settles: the path it sends a
    request to is one it lets through for the same session, so no request
    is redirected twice.  The only targets are [/auth/login] and
    [/dashboard]. *)
Theorem X2_redirect_settles (calls : list Middleware.cookie_call)
        (session : option Session.t) (pathname target : string) :
  Middleware.middleware calls session pathname = redirect target ->
  (target = "/auth/login" \/ target = "/dashboard")
  /\ exists cookie, Middleware.middleware calls session target = next cookie.
Proof.
  unfold Middleware.middleware.
  destruct session as [s|]; cbn [negb andb].
  - destruct (Js.startsWith pathname "/auth"); [|intros H].
    + intros [= <-]. split; [right; reflexivity|].
      cbn. apply passes_through. eauto.
    + exfalso.
      destruct (passes_through calls (next None) (ex_intro _ None eq_refl)) as [c E].
      congruence.
  - destruct (Js.startsWith pathname "/dashboard").
    + intros [= <-]. split; [left; reflexivity|].
      cbn. apply passes_through. eauto.
    + destruct (Js.startsWith pathname "/api"); [discriminate|].
      intros H. exfalso.
      destruct (passes_through calls (next None) (ex_intro _ None eq_refl)) as [c E].
      congruence.
Qed.

Lemma X2_redirect_settles_witness :
  Middleware.middleware [] None "/dashboard/books" = redirect "/auth/login"
  /\ exists cookie, Middleware.middleware [] None "/auth/login" = next cookie.
Proof.
  split; [reflexivity|].
  apply (X2_redirect_settles [] None "/dashboard/books" "/auth/login").
  reflexivity.
Defined.

(** X3.  What the [cookies] object of the middleware reads back.  After
    any sequence of [set] and [remove] calls, [get(name)] gives the value
    the last call on that name wrote, the empty string if that call was a
    [remove], and the cookie the request came with if no call named it. *)
Theorem X3_cookie_read_back (calls : list Middleware.cookie_call)
        (j : Cookies.jar) (name : string) :
  Cookies.get name (Cookies.after calls j)
  = match Cookies.last_written name calls with
    | Some v => Some v
    | None => Cookies.get name j
    end.
Proof.
  unfold Cookies.after. revert j.
  induction calls as [|c calls IH]; intros j; cbn [fold_left Cookies.last_written].
  - reflexivity.
  - rewrite IH. destruct (Cookies.last_written name calls); [reflexivity|].
    destruct c as [n v|n]; cbn [Cookies.on_call Cookies.put Cookies.get];
      destruct (String.eqb n name); reflexivity.
Qed.

(** ** The middleware in front of the API *)

Lemma api_path_passes (calls : list Middleware.cookie_call) (a : Auth.t)
      (rest : string) (h : NextResponse.t * table) (t : table) :
  (Auth.admitted a = None -> h = (unauthorized, t)) ->
  Server.behind_middleware calls a ("/api/" ++ rest) h t = h.
Proof.
  intros Hh. unfold Server.behind_middleware, Middleware.middleware.
  assert (Js.startsWith ("/api/" ++ rest) "/dashboard" = false) as -> by reflexivity.
  assert (Js.startsWith ("/api/" ++ rest) "/api" = true) as ->.
  { unfold Js.startsWith. cbn. destruct rest; reflexivity. }
  assert (Js.startsWith ("/api/" ++ rest) "/auth" = false) as -> by reflexivity.
  destruct (Auth.session a) as [s|] eqn:Hs; cbn [negb andb].
  - destruct (passes_through calls (next None) (ex_intro _ None eq_refl)) as [c ->].
    reflexivity.
  - symmetry. apply Hh. unfold Auth.admitted. rewrite Hs.
    destruct (Auth.authError a); reflexivity.
Qed.

(** X4.  The middleware changes no answer of the API.  For each of the
    four requests the dashboard sends, the response and the table after
    it are those of the route handler alone: with a session the
    middleware lets the request through, and without one its 401
    [{error: "Unauthorized"}] is what the handler would have answered. *)
Theorem X4_middleware_keeps_api_answers (calls : list Middleware.cookie_call)
        (a : Auth.t) (t : table) :
  (forall status search,
      Server.get_books calls a status search t
      = (BooksRoute.GET a status search t, t))
  /\ (forall req d,
        Server.post_book calls a req d t = BooksRoute.POST a req d t)
  /\ (forall id, Server.delete_book calls a id t = BookIdRoute.DELETE a id t)
  /\ (forall id req,
        Server.patch_book calls a id req t = BookIdRoute.PATCH a id req t).
Proof.
  unfold Server.get_books, Server.post_book, Server.delete_book, Server.patch_book.
  repeat split; intros;
    try change "/api/books" with ("/api/" ++ "books");
    try change ("/api/books/" ++ id) with ("/api/" ++ ("books/" ++ id));
    apply api_path_passes; intros Ha;
    destruct (unauthenticated_is_401 a Ha) as (HG & HP & _ & HD & HU);
    rewrite ?HG, ?HP, ?HD, ?HU; reflexivity.
Qed.

(** ** The route handlers: who is let in *)

(** X5.  A request without a session, or one for which [getSession]
    reported an error even though it found a session, is answered 401
    [{error: "Unauthorized"}] by every route handler, before the body,
    the query or the table is looked at, and the table stays as it was. *)
Theorem X5_no_session_no_effect (a : Auth.t) :
  Auth.session a = None \/ Auth.authError a <> None ->
  (forall status search t, BooksRoute.GET a status search t = unauthorized)
  /\ (forall req d t, BooksRoute.POST a req d t = (unauthorized, t))
  /\ (forall pathname t, BooksRoute.DELETE a pathname t = (unauthorized, t))
  /\ (forall i t, BookIdRoute.DELETE a i t = (unauthorized, t))
  /\ (forall i req t, BookIdRoute.PATCH a i req t = (unauthorized, t)).
Proof.
  intros H. apply unauthenticated_is_401. unfold Auth.admitted.
  destruct (Auth.authError a) as [e|]; [reflexivity|].
  destruct H as [H|H]; [exact H | contradiction].
Qed.

(** A session is there, but its resolution reported an error: Alice's
    valid create request is refused and nothing is stored. *)
Lemma X5_no_session_no_effect_witness :
  (Auth.session (Auth.mk (Some Sample.alice) (Some "refresh failed")) = None
   \/ Auth.authError (Auth.mk (Some Sample.alice) (Some "refresh failed")) <> None)
  /\ BooksRoute.POST (Auth.mk (Some Sample.alice) (Some "refresh failed"))
       (Js.Ok Sample.dune_request) Sample.fresh Sample.shelf
     = (unauthorized, Sample.shelf).
Proof.
  assert (Auth.session (Auth.mk (Some Sample.alice) (Some "refresh failed")) = None
          \/ Auth.authError (Auth.mk (Some Sample.alice) (Some "refresh failed")) <> None)
    as H by (right; discriminate).
  split; [exact H|].
  apply (proj1 (proj2 (X5_no_session_no_effect _ H))).
Defined.

(** ** POST /api/books *)

(** The decisions of [POST], once the three fields have been read. *)
Lemma POST_decision (sess : Session.t) (body : Js.json)
      (title author status : Js.value) (d : defaults) (t : table) :
  Js.get body "title" = Js.Ok title ->
  Js.get body "author" = Js.Ok author ->
  Js.get body "status" = Js.Ok status ->
  BooksRoute.POST (Auth.signed_in sess) (Js.Ok body) d t
  = if (negb (Js.truthy title) || negb (Js.truthy author))%bool
    then (json (error "Title and author are required") 400, t)
    else if negb (Js.includes statuses status)
    then (json (error "Invalid status") 400, t)
    else match Js.call_trim title, Js.call_trim author with
         | Js.Ok new_title, Js.Ok new_author =>
             (json (book (Book.mk (new_id d) (uid_of sess) new_title new_author
                                  (text status) (now d))) 201,
              (t ++ [Book.mk (new_id d) (uid_of sess) new_title new_author
                             (text status) (now d)])%list)
         | _, _ => (internal_server_error, t)
         end.
Proof.
  intros Gt Ga Gs. unfold BooksRoute.POST.
  cbn [Auth.admitted Auth.signed_in Auth.authError Auth.session Js.bind].
  rewrite Gt, Ga. cbn [Js.bind].
  destruct (negb (Js.truthy title) || negb (Js.truthy author))%bool;
    [reflexivity|].
  rewrite Gs. cbn [Js.bind].
  destruct (negb (Js.includes statuses status)); [reflexivity|].
  destruct (Js.call_trim title) as [nt|]; cbn [Js.bind Js.catch]; [|reflexivity].
  destruct (Js.call_trim author) as [na|]; cbn [Js.bind Js.catch]; reflexivity.
Qed.

Lemma truthy_text (s : string) : s <> "" -> Js.truthy (Some (Js.JStr s)) = true.
Proof.
  intros H. cbn. apply String.eqb_neq in H. rewrite H. reflexivity.
Qed.

(** X6.  [POST] is all or nothing.  If [title] and [author] are
    non-empty strings and [status] is one of the three, the answer is 201
    with the new Book, whose text fields are the trimmed inputs, whose
    owner is the caller and whose id and [created_at] are the database's,
    and the table grows by exactly that row at its end.  Conversely a 201
    is given only then; every other answer leaves the table as it was. *)
Theorem X6_post_all_or_nothing (sess : Session.t) (body : Js.json)
        (d : defaults) (t : table) :
  (forall title author status,
      Js.get body "title" = Js.Ok (Some (Js.JStr title)) -> title <> "" ->
      Js.get body "author" = Js.Ok (Some (Js.JStr author)) -> author <> "" ->
      Js.get body "status" = Js.Ok (Some (Js.JStr status)) -> In status statuses ->
      BooksRoute.POST (Auth.signed_in sess) (Js.Ok body) d t
      = (json (book (Book.mk (new_id d) (uid_of sess) (Js.trim title)
                             (Js.trim author) status (now d))) 201,
         (t ++ [Book.mk (new_id d) (uid_of sess) (Js.trim title)
                        (Js.trim author) status (now d)])%list))
  /\ (status_of (fst (BooksRoute.POST (Auth.signed_in sess) (Js.Ok body) d t))
      = Some 201%nat ->
      exists title author status,
        Js.get body "title" = Js.Ok (Some (Js.JStr title)) /\ title <> ""
        /\ Js.get body "author" = Js.Ok (Some (Js.JStr author)) /\ author <> ""
        /\ Js.get body "status" = Js.Ok (Some (Js.JStr status))
        /\ In status statuses)
  /\ (status_of (fst (BooksRoute.POST (Auth.signed_in sess) (Js.Ok body) d t))
      <> Some 201%nat ->
      snd (BooksRoute.POST (Auth.signed_in sess) (Js.Ok body) d t) = t).
Proof.
  split; [|split].
  - intros title author status Gt Ht Ga Ha Gs Hs.
    rewrite (POST_decision sess body _ _ _ d t Gt Ga Gs).
    rewrite (truthy_text title Ht), (truthy_text author Ha). cbn [negb orb].
    assert (Js.includes statuses (Some (Js.JStr status)) = true) as ->
      by (apply includes_str_In; exact Hs).
    reflexivity.
  - destruct (Js.get body "title") as [title|] eqn:Gt.
    2:{ destruct body; discriminate. }
    destruct (Js.get body "author") as [author|] eqn:Ga.
    2:{ destruct body; discriminate. }
    destruct (Js.get body "status") as [status|] eqn:Gs.
    2:{ destruct body; discriminate. }
    rewrite (POST_decision sess body _ _ _ d t Gt Ga Gs).
    destruct (Js.truthy title) eqn:Tt; [|cbn; discriminate].
    destruct (Js.truthy author) eqn:Ta; [|cbn; discriminate].
    cbn [negb orb].
    destruct (Js.includes statuses status) eqn:Is; [|cbn; discriminate].
    cbn [negb].
    destruct title as [[| | |title| |]|]; try (cbn; discriminate).
    destruct author as [[| | |author| |]|]; try (cbn; discriminate).
    destruct status as [[| | |status| |]|]; try discriminate.
    intros _. exists title, author, status.
    repeat split; try reflexivity.
    + intros ->. discriminate.
    + intros ->. discriminate.
    + apply includes_str_In. exact Is.
  - destruct (POST_outcomes sess (Js.Ok body) d t)
      as [(b & E & _)|(E & _)]; [|intros _; exact E].
    rewrite E. cbn. intros H. contradiction.
Qed.

(** Bob's create request with blanks around the title. *)
Lemma X6_post_all_or_nothing_witness :
  BooksRoute.POST (Auth.signed_in Sample.bob)
    (Js.Ok (Js.JObj [("title", Js.JStr "  Emma ");
                     ("author", Js.JStr "Jane Austen");
                     ("status", Js.JStr "wishlist")]))
    Sample.fresh Sample.shelf
  = (json (book (Book.mk "b4" "bob" "Emma" "Jane Austen" "wishlist" 40)) 201,
     (Sample.shelf ++ [Book.mk "b4" "bob" "Emma" "Jane Austen" "wishlist" 40])%list).
Proof.
  pose proof (proj1 (X6_post_all_or_nothing Sample.bob
                (Js.JObj [("title", Js.JStr "  Emma ");
                          ("author", Js.JStr "Jane Austen");
                          ("status", Js.JStr "wishlist")])
                Sample.fresh Sample.shelf)
                "  Emma " "Jane Austen" "wishlist"
                eq_refl ltac:(discriminate) eq_refl ltac:(discriminate) eq_refl
                ltac:(right; right; left; reflexivity)) as H.
  rewrite H. vm_compute. reflexivity.
Defined.

(** X7.  [POST] has no default status and compares statuses as they are
    spelled: when [title] and [author] are present but [status] is
    missing, is not a string, or is any string other than the three
    (["Reading"] with a capital, say), the answer is 400
    [{error: "Invalid status"}] and nothing is stored. *)
Theorem X7_post_invalid_status (sess : Session.t) (body : Js.json)
        (title author status : Js.value) (d : defaults) (t : table) :
  Js.get body "title" = Js.Ok title -> Js.truthy title = true ->
  Js.get body "author" = Js.Ok author -> Js.truthy author = true ->
  Js.get body "status" = Js.Ok status ->
  (forall s, In s statuses -> status <> Some (Js.JStr s)) ->
  BooksRoute.POST (Auth.signed_in sess) (Js.Ok body) d t
  = (json (error "Invalid status") 400, t).
Proof.
  intros Gt Tt Ga Ta Gs Hs.
  rewrite (POST_decision sess body _ _ _ d t Gt Ga Gs), Tt, Ta. cbn [negb orb].
  destruct (Js.includes statuses status) eqn:Is; [|reflexivity].
  destruct status as [[| | |s| |]|]; try discriminate.
  exfalso. apply (Hs s); [|reflexivity].
  apply includes_str_In. exact Is.
Qed.

Lemma X7_post_invalid_status_witness :
  BooksRoute.POST (Auth.signed_in Sample.alice)
    (Js.Ok (Js.JObj [("title", Js.JStr "Emma"); ("author", Js.JStr "Jane Austen");
                     ("status", Js.JStr "Reading")]))
    Sample.fresh Sample.shelf
  = (json (error "Invalid status") 400, Sample.shelf).
Proof.
  apply (X7_post_invalid_status Sample.alice _
           (Some (Js.JStr "Emma")) (Some (Js.JStr "Jane Austen"))
           (Some (Js.JStr "Reading")));
    try reflexivity.
  intros s [<-|[<-|[<-|[]]]]; discriminate.
Defined.

(** X8.  What [POST] answers to a body it cannot work with.  A request
    whose body is not JSON, whose body is [null], or whose [title] or
    [author] is a value other than a string that passes the emptiness
    test (a number, [true], an array, an object) while the status is
    valid, is answered 500 [{error: "Internal server error"}]; nothing is
    stored. *)
Theorem X8_post_unusable_body (sess : Session.t) (d : defaults) (t : table) :
  BooksRoute.POST (Auth.signed_in sess) Js.Throw d t = (internal_server_error, t)
  /\ BooksRoute.POST (Auth.signed_in sess) (Js.Ok Js.JNull) d t
     = (internal_server_error, t)
  /\ (forall body title author status,
        Js.get body "title" = Js.Ok title -> Js.truthy title = true ->
        Js.get body "author" = Js.Ok author -> Js.truthy author = true ->
        Js.get body "status" = Js.Ok (Some (Js.JStr status)) ->
        In status statuses ->
        (forall s, title <> Some (Js.JStr s)) \/ (forall s, author <> Some (Js.JStr s)) ->
        BooksRoute.POST (Auth.signed_in sess) (Js.Ok body) d t
        = (internal_server_error, t)).
Proof.
  split; [reflexivity|]. split; [reflexivity|].
  intros body title author status Gt Tt Ga Ta Gs Hs H.
  rewrite (POST_decision sess body _ _ _ d t Gt Ga Gs), Tt, Ta. cbn [negb orb].
  assert (Js.includes statuses (Some (Js.JStr status)) = true) as ->
    by (apply includes_str_In; exact Hs).
  cbn [negb].
  destruct H as [H|H].
  - destruct title as [[| | |s| |]|]; try reflexivity. exfalso. apply (H s). reflexivity.
  - destruct author as [[| | |s| |]|]; try (destruct (Js.call_trim title); reflexivity).
    exfalso. apply (H s). reflexivity.
Qed.

(** A numeric title. *)
Lemma X8_post_unusable_body_witness :
  BooksRoute.POST (Auth.signed_in Sample.alice)
    (Js.Ok (Js.JObj [("title", Js.JNum 1984); ("author", Js.JStr "Orwell");
                     ("status", Js.JStr "reading")]))
    Sample.fresh Sample.shelf
  = (internal_server_error, Sample.shelf).
Proof.
  apply (proj2 (proj2 (X8_post_unusable_body Sample.alice Sample.fresh Sample.shelf))
           _ (Some (Js.JNum 1984)) (Some (Js.JStr "Orwell")) "reading");
    try reflexivity.
  - left. reflexivity.
  - left. intros s. discriminate.
Defined.

(** ** GET /api/books *)

Lemma insert_desc_perm (b : Book.t) (l : list Book.t) :
  Permutation (insert_desc b l) (b :: l).
Proof.
  induction l as [|x l IH]; simpl; [reflexivity|].
  destruct (Book.created_at x <=? Book.created_at b); [reflexivity|].
  rewrite IH. apply perm_swap.
Qed.

Lemma order_desc_perm (l : list Book.t) : Permutation (order_desc l) l.
Proof.
  induction l as [|x l IH]; simpl; [reflexivity|].
  rewrite insert_desc_perm, IH. reflexivity.
Qed.

Lemma matches_query_of (uid : string) (status : option string) (b : Book.t) :
  matches (BooksRoute.query_of uid status) b
  = (owned_by uid b && wanted status b)%bool.
Proof.
  unfold BooksRoute.query_of, wanted, owned_by.
  destruct status as [st|];
    [|unfold matches; cbn [BooksRoute.status_clause forallb holds cell]; reflexivity].
  destruct (Js.includes_str statuses st) eqn:E.
  - rewrite status_clause_valid by (apply includes_str_In; exact E).
    unfold matches. cbn [forallb holds cell]. rewrite andb_true_r. reflexivity.
  - rewrite status_clause_invalid
      by (intros H; apply includes_str_In in H; congruence).
    unfold matches. cbn [forallb holds cell]. reflexivity.
Qed.

(** X9.  The list [GET] returns is in order and neither loses nor
    repeats a row.  Whenever the answer is a list, it is sorted by
    [created_at], newest first, and holds rows of the table that are the
    caller's.  On a request without search text the answer is 200 with a
    rearrangement of exactly the caller's rows that have the wanted
    status; on a request with a search text of plain ASCII characters it
    is 200 with a rearrangement of exactly those of them whose title or
    author is [ILIKE] the text between two [%]. *)
Theorem X9_get_sorted_selection (sess : Session.t) (status search : option string)
        (t : table) :
  (forall l,
      BooksRoute.GET (Auth.signed_in sess) status search t = json (books l) 200 ->
      StronglySorted newer_eq l
      /\ forall b, In b l -> In b t /\ Book.user_id b = uid_of sess)
  /\ (Js.truthy_str search = false ->
        exists l,
          BooksRoute.GET (Auth.signed_in sess) status search t = json (books l) 200
          /\ Permutation l
               (filter (fun b => (owned_by (uid_of sess) b && wanted status b)%bool) t))
  /\ (forall q,
        search = Some q -> q <> "" ->
        forallb plain (chars q) = true -> ascii_text q = true ->
        exists l,
          BooksRoute.GET (Auth.signed_in sess) status search t = json (books l) 200
          /\ Permutation l
               (filter (fun b => (owned_by (uid_of sess) b && wanted status b
                                  && (ilike (BooksRoute.pattern_of q) (Book.title b)
                                      || ilike (BooksRoute.pattern_of q) (Book.author b)))%bool)
                       t)).
Proof.
  split; [|split].
  - intros l.
    destruct (GET_answers sess status search) as [(m & E)|(fs & E)];
      rewrite E; [discriminate|].
    intros [= <-]. split; [apply order_desc_sorted|].
    intros b H. apply in_order_desc, filter_In in H. destruct H as [Hb H].
    split; [exact Hb|]. apply matches_owner in H. apply String.eqb_eq. exact H.
  - intros H. eexists. split; [apply GET_without_search; exact H|].
    rewrite order_desc_perm.
    rewrite (filter_ext _ _ (matches_query_of (uid_of sess) status)). reflexivity.
  - intros q -> Hne Hq _. destruct (plain_text_reads q Hq) as [Hc Hp].
    eexists. split; [apply GET_with_search; assumption|].
    rewrite order_desc_perm.
    erewrite filter_ext; [reflexivity|]. intros b.
    rewrite matches_app, matches_query_of.
    unfold matches. cbn [forallb holds existsb satisfies cell].
    rewrite andb_true_r, orb_false_r. reflexivity.
Qed.

(** Alice's list without parameters holds her two books and not Bob's. *)
Lemma X9_get_sorted_selection_witness :
  Js.truthy_str None = false
  /\ exists l,
       BooksRoute.GET (Auth.signed_in Sample.alice) None None Sample.shelf
       = json (books l) 200
       /\ Permutation l [Sample.dune; Sample.ulysses].
Proof.
  split; [reflexivity|].
  exact (proj1 (proj2 (X9_get_sorted_selection Sample.alice None None Sample.shelf))
           eq_refl).
Defined.

Lemma matches_status_clause (status : option string) (b : Book.t) :
  matches (BooksRoute.status_clause status) b = true
  <-> (forall st, status = Some st -> In st statuses -> Book.status b = st).
Proof.
  destruct status as [st|]; [|split; [intros _ st' H; discriminate | reflexivity]].
  destruct (Js.includes_str statuses st) eqn:E.
  - assert (In st statuses) as Hst by (apply includes_str_In; exact E).
    rewrite status_clause_valid by exact Hst.
    unfold matches. cbn [forallb holds cell]. rewrite andb_true_r, String.eqb_eq.
    split; [intros H st' [= <-] _; exact H | intros H; apply H; auto].
  - rewrite status_clause_invalid
      by (intros H; apply includes_str_In in H; congruence).
    split; [|reflexivity]. intros _ st' [= <-] H.
    apply includes_str_In in H. congruence.
Qed.

(** X10.  The two filters of [GET] apply together.  For a non-empty
    search text of plain ASCII characters and any [status] parameter, a
    Book is in the answer exactly if it is a row of the caller, has the
    requested status when that status is one of the three, and contains
    the search text in its title or in its author, letters compared
    without case. *)
Theorem X10_get_both_filters (sess : Session.t) (status : option string)
        (q : string) (t : table) :
  q <> "" ->
  forallb plain (chars q) = true ->
  ascii_text q = true ->
  exists l,
    BooksRoute.GET (Auth.signed_in sess) status (Some q) t = json (books l) 200
    /\ forall b,
         In b l <->
         In b t /\ Book.user_id b = uid_of sess
         /\ (forall st, status = Some st -> In st statuses -> Book.status b = st)
         /\ (contains_ci q (Book.title b) \/ contains_ci q (Book.author b)).
Proof.
  intros Hne Hq _. destruct (plain_text_reads q Hq) as [Hc Hp].
  eexists. split; [apply GET_with_search; assumption|].
  intros b. rewrite in_order_desc, filter_In.
  unfold BooksRoute.query_of.
  change (Eq col_user_id (uid_of sess) :: BooksRoute.status_clause status)
    with ([Eq col_user_id (uid_of sess)] ++ BooksRoute.status_clause status)%list.
  rewrite !matches_app, !andb_true_iff, matches_status_clause.
  assert (matches [Eq col_user_id (uid_of sess)] b = true
          <-> Book.user_id b = uid_of sess) as ->.
  { unfold matches. cbn [forallb holds cell].
    rewrite andb_true_r. apply String.eqb_eq. }
  assert (matches [Or [Cond col_title op_ilike (BooksRoute.pattern_of q);
                       Cond col_author op_ilike (BooksRoute.pattern_of q)]] b = true
          <-> contains_ci q (Book.title b) \/ contains_ci q (Book.author b)) as ->.
  { unfold matches. cbn [forallb holds existsb satisfies cell].
    rewrite andb_true_r, orb_false_r, orb_true_iff.
    rewrite !ilike_contains by exact Hq. reflexivity. }
  tauto.
Qed.

(** Alice looks for "ULY" among the books on her wishlist. *)
Lemma X10_get_both_filters_witness :
  "ULY" <> ""
  /\ forallb plain (chars "ULY") = true
  /\ ascii_text "ULY" = true
  /\ exists l,
       BooksRoute.GET (Auth.signed_in Sample.alice) (Some "wishlist") (Some "ULY")
                      Sample.shelf
       = json (books l) 200
       /\ forall b,
            In b l <->
            In b Sample.shelf /\ Book.user_id b = uid_of Sample.alice
            /\ (forall st, Some "wishlist" = Some st -> In st statuses ->
                           Book.status b = st)
            /\ (contains_ci "ULY" (Book.title b) \/ contains_ci "ULY" (Book.author b)).
Proof.
  assert ("ULY" <> "") as Hne by discriminate.
  assert (forallb plain (chars "ULY") = true) as Hq by (vm_compute; reflexivity).
  assert (ascii_text "ULY" = true) as Ha by (vm_compute; reflexivity).
  split; [exact Hne|]. split; [exact Hq|]. split; [exact Ha|].
  exact (X10_get_both_filters Sample.alice (Some "wishlist") "ULY" Sample.shelf
           Hne Hq Ha).
Defined.

(** ** DELETE on the collection route *)

Section LastSegment.

Lemma split_not_nil (sep : ascii) (s : string) : Js.split sep s <> [].
Proof.
  destruct s as [|c s]; cbn [Js.split]; [discriminate|].
  destruct (Ascii.eqb c sep); [discriminate|].
  destruct (Js.split sep s); discriminate.
Qed.

Lemma pop_cons (x : string) (rest : list string) :
  rest <> [] -> Js.pop (x :: rest) = Js.pop rest.
Proof. destruct rest; [contradiction | reflexivity]. Qed.

Lemma split_no_slash (name : string) :
  no_slash name = true -> Js.split "/" name = [name].
Proof.
  unfold no_slash, chars. induction name as [|c name IH]; cbn; [reflexivity|].
  intros H. apply andb_true_iff in H. destruct H as [Hc H].
  apply negb_true_iff in Hc. cbn in Hc. rewrite Hc, IH by exact H. reflexivity.
Qed.

Lemma split_after_slash (dir rest : string) :
  exists seg more,
    Js.split "/" (dir ++ "/" ++ rest) = seg :: more
    /\ more <> []
    /\ Js.pop more = Js.pop (Js.split "/" rest).
Proof.
  induction dir as [|c dir IH].
  - exists EmptyString, (Js.split "/" rest). cbn.
    split; [reflexivity|]. split; [apply split_not_nil | reflexivity].
  - destruct IH as (seg & more & E & Hm & Hp).
    change (String c dir ++ "/" ++ rest) with (String c (dir ++ "/" ++ rest)).
    cbn [Js.split]. rewrite E.
    destruct (Ascii.eqb c "/").
    + exists EmptyString, (seg :: more). split; [reflexivity|].
      split; [discriminate|]. rewrite pop_cons by exact Hm. exact Hp.
    + exists (String c seg), more. auto.
Qed.

(** [pathname.split('/').pop()] is what follows the last slash. *)
Lemma pop_split_after_slash (dir name : string) :
  no_slash name = true ->
  Js.pop (Js.split "/" (dir ++ "/" ++ name)) = Some name.
Proof.
  intros H. destruct (split_after_slash dir name) as (seg & more & E & Hm & Hp).
  rewrite E, pop_cons by exact Hm. rewrite Hp, split_no_slash by exact H.
  reflexivity.
Qed.

Lemma last_slash (s : string) :
  no_slash s = true
  \/ exists dir name, s = dir ++ "/" ++ name /\ no_slash name = true.
Proof.
  induction s as [|c s IH]; [left; reflexivity|].
  destruct IH as [H|(dir & name & -> & H)].
  - destruct (Ascii.eqb c "/") eqn:E.
    + right. apply Ascii.eqb_eq in E. subst c. exists EmptyString, s. auto.
    + left. unfold no_slash, chars in *. cbn. rewrite E. exact H.
  - right. exists (String c dir), name. auto.
Qed.

Lemma ends_in_slash_app (dir name : string) :
  ends_in_slash (dir ++ "/" ++ name)
  = match name with
    | EmptyString => true
    | _ => ends_in_slash name
    end.
Proof.
  induction dir as [|c dir IH].
  - destruct name; reflexivity.
  - change (String c dir ++ "/" ++ name) with (String c (dir ++ "/" ++ name)).
    cbn [ends_in_slash]. rewrite IH.
    destruct (dir ++ "/" ++ name) eqn:E; [|reflexivity].
    destruct dir; discriminate.
Qed.

Lemma no_slash_not_ending (s : string) :
  no_slash s = true -> ends_in_slash s = false.
Proof.
  unfold no_slash, chars. induction s as [|c s IH]; [reflexivity|].
  cbn. intros H. apply andb_true_iff in H. destruct H as [Hc H].
  apply negb_true_iff in Hc. destruct s; [exact Hc | apply IH; exact H].
Qed.

(** The last segment is empty exactly for the empty path and for a path
    that ends in a slash. *)
Lemma pop_split_empty (s : string) :
  Js.pop (Js.split "/" s) = Some EmptyString
  <-> s = EmptyString \/ ends_in_slash s = true.
Proof.
  destruct (last_slash s) as [H|(dir & name & -> & H)].
  - rewrite split_no_slash by exact H. cbn [Js.pop].
    rewrite (no_slash_not_ending s H). split.
    + intros [= ->]. left. reflexivity.
    + intros [->|E]; [reflexivity | discriminate].
  - rewrite pop_split_after_slash by exact H. rewrite ends_in_slash_app. split.
    + intros [= ->]. right. reflexivity.
    + intros [E|E].
      * destruct dir; discriminate.
      * destruct name; [reflexivity|].
        rewrite (no_slash_not_ending _ H) in E. discriminate.
Qed.

Lemma pop_split_some (s : string) : exists i, Js.pop (Js.split "/" s) = Some i.
Proof.
  destruct (last_slash s) as [H|(dir & name & -> & H)].
  - rewrite split_no_slash by exact H. exists s. reflexivity.
  - rewrite pop_split_after_slash by exact H. exists name. reflexivity.
Qed.

End LastSegment.

(** X11.  The collection-route [DELETE] asks for an id exactly when the
    path gives none: the answer is 400 [{error: "Book ID is required"}]
    if and only if the pathname is empty or ends in a slash, and then the
    table is as before. *)
Theorem X11_delete_requires_id (sess : Session.t) (pathname : string) (t : table) :
  (fst (BooksRoute.DELETE (Auth.signed_in sess) pathname t)
   = json (error "Book ID is required") 400
   <-> pathname = "" \/ ends_in_slash pathname = true)
  /\ (pathname = "" \/ ends_in_slash pathname = true ->
      snd (BooksRoute.DELETE (Auth.signed_in sess) pathname t) = t).
Proof.
  rewrite DELETE_collection_signed_in.
  rewrite <- pop_split_empty.
  destruct (pop_split_some pathname) as [i ->].
  destruct (String.eqb_spec i "") as [->|Hi].
  - split; [split; reflexivity | reflexivity].
  - split.
    + split.
      * destruct (select_id_single _ t); cbn [fst]; discriminate.
      * intros [= E]. contradiction.
    + intros [= E]. contradiction.
Qed.

Lemma X11_delete_requires_id_witness :
  BooksRoute.DELETE (Auth.signed_in Sample.alice) "/api/books/" Sample.shelf
  = (json (error "Book ID is required") 400, Sample.shelf).
Proof.
  destruct (X11_delete_requires_id Sample.alice "/api/books/" Sample.shelf)
    as [[_ H] K].
  assert ("/api/books/" = "" \/ ends_in_slash "/api/books/" = true) as E
    by (right; reflexivity).
  specialize (H E). specialize (K E).
  destruct (BooksRoute.DELETE (Auth.signed_in Sample.alice) "/api/books/" Sample.shelf).
  cbn [fst snd] in H, K. rewrite H, K. reflexivity.
Defined.

(** X12.  Once the collection-route [DELETE] has found the caller's row,
    it deletes by id alone.  For a path that ends in [/i], [i] non-empty
    and without a slash, when the caller owns exactly one row with id
    [i], the answer is 200 [{success: true}] and the table afterwards is
    the old one without every row whose id is [i], whoever owns it. *)
Theorem X12_delete_collection_by_id (sess : Session.t) (dir i : string)
        (t : table) (b : Book.t) :
  no_slash i = true -> i <> "" ->
  filter (fun r => (String.eqb (Book.id r) i && owned_by (uid_of sess) r)%bool) t
  = [b] ->
  BooksRoute.DELETE (Auth.signed_in sess) (dir ++ "/" ++ i) t
  = (json success 200,
     filter (fun r => negb (String.eqb (Book.id r) i)) t).
Proof.
  intros Hs Hi Hf. rewrite DELETE_collection_signed_in.
  rewrite pop_split_after_slash by exact Hs.
  apply String.eqb_neq in Hi. rewrite Hi.
  unfold select_id_single.
  rewrite (filter_ext _ _ (matches_id_owner (uid_of sess) i)), Hf.
  cbn [map single]. unfold delete. cbn [snd]. f_equal.
  apply filter_ext. intros r. unfold matches. cbn [forallb holds cell].
  rewrite andb_true_r. reflexivity.
Qed.

(** Alice deletes her "Dune" through the collection route. *)
Lemma X12_delete_collection_by_id_witness :
  BooksRoute.DELETE (Auth.signed_in Sample.alice) ("/api/books" ++ "/" ++ "b1")
                    Sample.shelf
  = (json success 200, [Sample.emma; Sample.ulysses]).
Proof.
  rewrite (X12_delete_collection_by_id Sample.alice "/api/books" "b1"
             Sample.shelf Sample.dune);
    try reflexivity.
  discriminate.
Defined.

(** The collection route, any path, a table with unique ids. *)
Lemma X13_delete_collection_scoped_witness :
  unique_ids Sample.shelf
  /\ rows_of_others (uid_of Sample.alice)
       (snd (BooksRoute.DELETE (Auth.signed_in Sample.alice) "/api/books/b1"
               Sample.shelf))
     = rows_of_others (uid_of Sample.alice) Sample.shelf.
Proof.
  assert (unique_ids Sample.shelf) as U.
  { unfold unique_ids. simpl. repeat constructor; simpl; intuition discriminate. }
  split; [exact U|].
  apply (DELETE_collection_scoped Sample.alice "/api/books/b1" Sample.shelf U).
Defined.

(** ** DELETE /api/books/{id} *)

(** X14.  After [DELETE /api/books/{id}] the Book is gone from every
    list: when a [GET] is answered with a list, the same [GET] on the
    table the delete leaves behind is answered with that list without
    the Books whose id is the deleted one, in the same order.  A [GET]
    that is answered 500, which is the only other answer, is answered
    the same 500 afterwards. *)
Theorem X14_delete_then_get (sess : Session.t) (i : string)
        (status search : option string) (t : table) :
  let a := Auth.signed_in sess in
  let t' := snd (BookIdRoute.DELETE a i t) in
  (forall l,
      BooksRoute.GET a status search t = json (books l) 200 ->
      BooksRoute.GET a status search t'
      = json (books (filter (fun b => negb (String.eqb (Book.id b) i)) l)) 200)
  /\ (forall m,
        BooksRoute.GET a status search t = json (error m) 500 ->
        BooksRoute.GET a status search t' = json (error m) 500)
  /\ ((exists l, BooksRoute.GET a status search t = json (books l) 200)
      \/ (exists m, BooksRoute.GET a status search t = json (error m) 500)).
Proof.
  intros a t'. subst a t'.
  destruct (GET_answers sess status search) as [(m & E)|(fs & E)]; rewrite !E.
  - split; [discriminate|]. split; [intros m' H; exact H|]. right. eauto.
  - split; [|split; [discriminate | left; eauto]].
    intros l [= <-]. rewrite DELETE_id_signed_in. cbn [snd delete].
    do 2 f_equal. rewrite filter_order_desc. f_equal.
    rewrite !filter_filter_and. apply filter_ext. intros b.
    rewrite matches_id_owner.
    destruct (matches (Eq col_user_id (uid_of sess) :: fs) b) eqn:M.
    + apply matches_owner in M. rewrite M, andb_true_r, andb_true_r. reflexivity.
    + rewrite andb_false_r. reflexivity.
Qed.

(** Alice deletes "Dune": her list, which held it, holds "Ulysses"
    only. *)
Lemma X14_delete_then_get_witness :
  BooksRoute.GET (Auth.signed_in Sample.alice) None None Sample.shelf
  = json (books [Sample.ulysses; Sample.dune]) 200
  /\ BooksRoute.GET (Auth.signed_in Sample.alice) None None
       (snd (BookIdRoute.DELETE (Auth.signed_in Sample.alice) "b1" Sample.shelf))
     = json (books [Sample.ulysses]) 200.
Proof.
  assert (BooksRoute.GET (Auth.signed_in Sample.alice) None None Sample.shelf
          = json (books [Sample.ulysses; Sample.dune]) 200) as H
    by (vm_compute; reflexivity).
  split; [exact H|].
  exact (proj1 (X14_delete_then_get Sample.alice "b1" None None Sample.shelf) _ H).
Defined.

(** ** PATCH /api/books/{id} *)

(** X15.  [PATCH] never adds, removes or reorders a row and never
    touches the columns a client may not set: whatever the caller, the id
    and the body, the table afterwards has the same ids, owners and
    creation times as before, row by row. *)
Theorem X15_patch_keeps_immutables (a : Auth.t) (i : string)
        (req : Js.result Js.json) (t : table) :
  map Book.id (snd (BookIdRoute.PATCH a i req t)) = map Book.id t
  /\ map Book.user_id (snd (BookIdRoute.PATCH a i req t)) = map Book.user_id t
  /\ map Book.created_at (snd (BookIdRoute.PATCH a i req t)) = map Book.created_at t.
Proof.
  unfold BookIdRoute.PATCH.
  destruct (Auth.admitted a) as [sess|]; [|repeat split].
  destruct req as [body|]; cbn [Js.bind Js.catch snd]; [|repeat split].
  destruct (BookIdRoute.updates_of body) as [u|]; cbn [Js.bind Js.catch snd];
    [|repeat split].
  destruct (BookIdRoute.no_keys u); cbn [Js.catch snd]; [repeat split|].
  unfold update_single. destruct (single _) as [b|m]; cbn [Js.catch snd];
    [|repeat split].
  rewrite !map_map.
  repeat split; apply map_ext; intros r; destruct (matches _ r); reflexivity.
Qed.

(** X16.  A [PATCH] whose body is [{status}] with one of the three
    statuses, on an id under which the caller owns exactly one row,
    answers 200 with that row under its new status, and changes the
    status of that row and nothing else in the table. *)
Theorem X16_patch_status_only (sess : Session.t) (i status : string)
        (t : table) (b : Book.t) :
  In status statuses ->
  filter (fun r => (String.eqb (Book.id r) i && owned_by (uid_of sess) r)%bool) t
  = [b] ->
  BookIdRoute.PATCH (Auth.signed_in sess) i
    (Js.Ok (Js.JObj [("status", Js.JStr status)])) t
  = (json (book (Dashboard.with_status status b)) 200,
     map (fun r => if (String.eqb (Book.id r) i && owned_by (uid_of sess) r)%bool
                   then Dashboard.with_status status r else r) t).
Proof.
  intros Hs Hf. rewrite PATCH_signed_in. cbn [Js.bind].
  assert (BookIdRoute.updates_of (Js.JObj [("status", Js.JStr status)])
          = Js.Ok {| u_title := None; u_author := None; u_status := Some status |})
    as ->.
  { destruct Hs as [<-|[<-|[<-|[]]]]; reflexivity. }
  cbn [BookIdRoute.no_keys u_title u_author u_status].
  unfold update_single.
  rewrite (filter_ext _ _ (matches_id_owner (uid_of sess) i)), Hf.
  cbn [map single]. f_equal.
  apply map_ext. intros r. rewrite matches_id_owner. reflexivity.
Qed.

(** Alice marks "Dune" as completed. *)
Lemma X16_patch_status_only_witness :
  BookIdRoute.PATCH (Auth.signed_in Sample.alice) "b1"
    (Js.Ok (Js.JObj [("status", Js.JStr "completed")])) Sample.shelf
  = (json (book (Book.mk "b1" "alice" "Dune" "Herbert" "completed" 10)) 200,
     [Book.mk "b1" "alice" "Dune" "Herbert" "completed" 10;
      Sample.emma; Sample.ulysses]).
Proof.
  rewrite (X16_patch_status_only Sample.alice "b1" "completed" Sample.shelf
             Sample.dune);
    [vm_compute; reflexivity | right; left; reflexivity | vm_compute; reflexivity].
Defined.

Section PatchTwice.

Variables (u : updates) (fs : list clause).
Hypothesis fs_immutable :
  forall r, matches fs (apply_updates u r) = matches fs r.

Lemma apply_updates_idempotent (r : Book.t) :
  apply_updates u (apply_updates u r) = apply_updates u r.
Proof.
  unfold apply_updates. cbn.
  destruct (u_title u), (u_author u), (u_status u); reflexivity.
Qed.

Lemma filter_updated (t : table) :
  filter (matches fs) (map (fun r => if matches fs r then apply_updates u r else r) t)
  = map (apply_updates u) (filter (matches fs) t).
Proof.
  induction t as [|r t IH]; cbn [map filter]; [reflexivity|].
  destruct (matches fs r) eqn:M.
  - rewrite fs_immutable, M. cbn [map]. rewrite IH. reflexivity.
  - rewrite M. exact IH.
Qed.

Lemma update_single_twice (t : table) :
  update_single u fs (snd (update_single u fs t)) = update_single u fs t.
Proof.
  unfold update_single at 2 3.
  destruct (filter (matches fs) t) as [|b [|b' rest]] eqn:F; cbn [map single snd].
  - unfold update_single. rewrite F. reflexivity.
  - unfold update_single. rewrite filter_updated, F. cbn [map single].
    rewrite apply_updates_idempotent. f_equal.
    rewrite map_map. apply map_ext. intros r.
    destruct (matches fs r) eqn:M.
    + rewrite fs_immutable, M. apply apply_updates_idempotent.
    + rewrite M. reflexivity.
  - unfold update_single. rewrite F. reflexivity.
Qed.

End PatchTwice.

(** X17.  [PATCH] is idempotent: sending the same request again, on the
    table the first one left, gets the same response and leaves that
    table as it is. *)
Theorem X17_patch_idempotent (a : Auth.t) (i : string)
        (req : Js.result Js.json) (t : table) :
  BookIdRoute.PATCH a i req (snd (BookIdRoute.PATCH a i req t))
  = BookIdRoute.PATCH a i req t.
Proof.
  unfold BookIdRoute.PATCH.
  destruct (Auth.admitted a) as [sess|]; [|reflexivity].
  destruct req as [body|]; cbn [Js.bind Js.catch snd]; [|reflexivity].
  destruct (BookIdRoute.updates_of body) as [u|]; cbn [Js.bind Js.catch snd];
    [|reflexivity].
  destruct (BookIdRoute.no_keys u); cbn [Js.catch snd]; [reflexivity|].
  pose proof (update_single_twice u
                [Eq col_id i; Eq col_user_id (User.id (Session.user sess))]
                (fun r => eq_refl) t) as E.
  destruct (update_single u _ t) as [r1 t1] eqn:U1.
  cbn [snd] in E.
  destruct r1 as [b|m]; cbn [Js.catch snd]; rewrite E; reflexivity.
Qed.

(** ** What the handlers keep true of the table *)

Lemma admitted_signed_in (a : Auth.t) (sess : Session.t) :
  Auth.admitted a = Some sess -> a = Auth.signed_in sess.
Proof.
  destruct a as [s e]. unfold Auth.admitted. cbn.
  destruct e; [discriminate|]. intros ->. reflexivity.
Qed.

(** What [PATCH] may write: trimmed text and a status of the list. *)
Lemma updates_of_sound (body : Js.json) (u : updates) :
  BookIdRoute.updates_of body = Js.Ok u ->
  (forall s, u_title u = Some s -> trimmed s)
  /\ (forall s, u_author u = Some s -> trimmed s)
  /\ (forall s, u_status u = Some s -> In s statuses).
Proof.
  unfold BookIdRoute.updates_of, BookIdRoute.trimmed_field.
  destruct (Js.get body "title") as [vt|]; cbn [Js.bind]; [|discriminate].
  destruct (Js.get body "author") as [va|]; cbn [Js.bind].
  2:{ destruct (Js.truthy vt); [destruct (Js.call_trim vt)|]; discriminate. }
  destruct (Js.get body "status") as [vs|]; cbn [Js.bind].
  2:{ destruct (Js.truthy vt); [destruct (Js.call_trim vt)|]; cbn [Js.bind];
      try discriminate;
      (destruct (Js.truthy va); [destruct (Js.call_trim va)|]; discriminate). }
  assert (forall v r,
             (if Js.truthy v then s <- Js.call_trim v ;; Js.Ok (Some s)
              else Js.Ok None) = Js.Ok r ->
             forall s, r = Some s -> trimmed s) as T.
  { intros v r H s ->. destruct (Js.truthy v); [|discriminate].
    destruct v as [[| | |x| |]|]; try discriminate.
    cbn in H. injection H as <-. apply trim_trimmed. }
  destruct (if Js.truthy vt then _ else _) as [rt|] eqn:Et; cbn [Js.bind];
    [|discriminate].
  destruct (if Js.truthy va then _ else _) as [ra|] eqn:Ea; cbn [Js.bind];
    [|discriminate].
  intros [= <-]. cbn [u_title u_author u_status].
  split; [exact (T vt rt Et)|]. split; [exact (T va ra Ea)|].
  intros s. destruct (Js.truthy vs && Js.includes statuses vs)%bool eqn:E;
    [|discriminate].
  intros [= <-]. apply andb_true_iff in E. destruct E as [_ E].
  destruct vs as [[| | |x| |]|]; try discriminate.
  apply includes_str_In. exact E.
Qed.

Section KeepForall.

Variable P : Book.t -> Prop.
Hypothesis created_ok :
  forall sess req d t b,
    BooksRoute.POST (Auth.signed_in sess) req d t
    = (json (book b) 201, (t ++ [b])%list) -> P b.
Hypothesis updated_ok :
  forall body u r, BookIdRoute.updates_of body = Js.Ok u -> P r ->
                   P (apply_updates u r).

Lemma handlers_keep_forall (a : Auth.t) (t : table) :
  Forall P t ->
  (forall req d, Forall P (snd (BooksRoute.POST a req d t)))
  /\ (forall pathname, Forall P (snd (BooksRoute.DELETE a pathname t)))
  /\ (forall i, Forall P (snd (BookIdRoute.DELETE a i t)))
  /\ (forall i req, Forall P (snd (BookIdRoute.PATCH a i req t))).
Proof.
  intros F. destruct (Auth.admitted a) as [sess|] eqn:A.
  2:{ destruct (unauthenticated_is_401 a A) as (_ & HP & HD & HI & HU).
      repeat split; intros; rewrite ?HP, ?HD, ?HI, ?HU; exact F. }
  apply admitted_signed_in in A. subst a. repeat split.
  - intros req d.
    destruct (POST_outcomes sess req d t) as [(b & E & _)|(E & _)];
      [|rewrite E; exact F].
    rewrite E. cbn [snd]. apply Forall_app. split; [exact F|].
    constructor; [|constructor]. eapply created_ok. exact E.
  - intros pathname. rewrite DELETE_collection_signed_in.
    destruct (Js.pop (Js.split "/" pathname)) as [i|]; [|exact F].
    destruct (String.eqb i ""); [exact F|].
    destruct (select_id_single _ t); [|exact F].
    cbn [snd delete]. apply Forall_filter. exact F.
  - intros i. rewrite DELETE_id_signed_in. cbn [snd delete].
    apply Forall_filter. exact F.
  - intros i req. rewrite PATCH_signed_in.
    destruct req as [body|]; cbn [Js.bind]; [|exact F].
    destruct (BookIdRoute.updates_of body) as [u|] eqn:U; [|exact F].
    destruct (BookIdRoute.no_keys u); [exact F|].
    unfold update_single. destruct (single _) as [b|m]; cbn [snd]; [|exact F].
    rewrite Forall_forall in *. intros x Hx. apply in_map_iff in Hx.
    destruct Hx as (r & <- & Hr). destruct (matches _ r); auto.
    eapply updated_ok; eauto.
Qed.

End KeepForall.

(** X18.  The status column stays within the three values: if every
    stored status is one of [reading], [completed], [wishlist], so it is
    after any [POST], [PATCH] or [DELETE], whoever sends it and whatever
    it carries. *)
Theorem X18_statuses_stay_valid (a : Auth.t) (t : table) :
  statuses_valid t ->
  (forall req d, statuses_valid (snd (BooksRoute.POST a req d t)))
  /\ (forall pathname, statuses_valid (snd (BooksRoute.DELETE a pathname t)))
  /\ (forall i, statuses_valid (snd (BookIdRoute.DELETE a i t)))
  /\ (forall i req, statuses_valid (snd (BookIdRoute.PATCH a i req t))).
Proof.
  unfold statuses_valid. apply handlers_keep_forall.
  - intros sess req d t0 b E.
    destruct (POST_outcomes sess req d t0)
      as [(b' & E' & _ & _ & _ & H & _)|(_ & _ & m & c & F & _)].
    + rewrite E in E'. assert (b = b') as -> by congruence. exact H.
    + rewrite E in F. discriminate.
  - intros body u r U H. destruct (updates_of_sound body u U) as (_ & _ & Hs).
    unfold apply_updates. cbn [Book.status].
    destruct (u_status u) as [s|]; [apply Hs; reflexivity | exact H].
Qed.

Lemma X18_statuses_stay_valid_witness :
  statuses_valid Sample.shelf
  /\ statuses_valid
       (snd (BookIdRoute.PATCH (Auth.signed_in Sample.alice) "b1"
               (Js.Ok (Js.JObj [("status", Js.JStr "abandoned");
                                ("title", Js.JStr "Dune Messiah")]))
               Sample.shelf)).
Proof.
  assert (statuses_valid Sample.shelf) as V.
  { unfold statuses_valid. repeat (apply Forall_cons; [cbn; auto 6|]).
    apply Forall_nil. }
  split; [exact V|].
  apply (proj2 (proj2 (proj2 (X18_statuses_stay_valid
                                (Auth.signed_in Sample.alice) Sample.shelf V)))).
Defined.

(** X19.  Stored text stays trimmed: if no stored title or author has a
    blank at either end, none has after any [POST], [PATCH] or [DELETE]. *)
Theorem X19_texts_stay_trimmed (a : Auth.t) (t : table) :
  texts_trimmed t ->
  (forall req d, texts_trimmed (snd (BooksRoute.POST a req d t)))
  /\ (forall pathname, texts_trimmed (snd (BooksRoute.DELETE a pathname t)))
  /\ (forall i, texts_trimmed (snd (BookIdRoute.DELETE a i t)))
  /\ (forall i req, texts_trimmed (snd (BookIdRoute.PATCH a i req t))).
Proof.
  unfold texts_trimmed. apply handlers_keep_forall.
  - intros sess req d t0 b E. apply (POST_stores_trimmed sess req d t0).
    rewrite E. reflexivity.
  - intros body u r U [Ht Ha]. destruct (updates_of_sound body u U) as (St & Sa & _).
    unfold apply_updates. cbn [Book.title Book.author]. split.
    + destruct (u_title u) as [s|]; [apply St; reflexivity | exact Ht].
    + destruct (u_author u) as [s|]; [apply Sa; reflexivity | exact Ha].
Qed.

Lemma X19_texts_stay_trimmed_witness :
  texts_trimmed Sample.shelf
  /\ texts_trimmed
       (snd (BooksRoute.POST (Auth.signed_in Sample.bob)
               (Js.Ok (Js.JObj [("title", Js.JStr "  Emma ");
                                ("author", Js.JStr " Jane Austen");
                                ("status", Js.JStr "wishlist")]))
               Sample.fresh Sample.shelf)).
Proof.
  assert (texts_trimmed Sample.shelf) as V.
  { unfold texts_trimmed, trimmed.
    repeat (apply Forall_cons; [split; vm_compute; reflexivity|]).
    apply Forall_nil. }
  split; [exact V|].
  apply (proj1 (X19_texts_stay_trimmed (Auth.signed_in Sample.bob) Sample.shelf V)).
Defined.

(** The ids of the sample shelf are unique, and stay so when Bob adds a
    Book under an unused id. *)
Lemma X20_handlers_keep_unique_ids_witness :
  unique_ids Sample.shelf
  /\ unique_ids
       (snd (BooksRoute.POST (Auth.signed_in Sample.bob)
               (Js.Ok Sample.dune_request) Sample.fresh Sample.shelf)).
Proof.
  assert (unique_ids Sample.shelf) as U.
  { unfold unique_ids. simpl. repeat constructor; simpl; intuition discriminate. }
  split; [exact U|].
  apply (proj1 (handlers_keep_unique_ids (Auth.signed_in Sample.bob) Sample.shelf U)).
  simpl. intuition discriminate.
Defined.

(** X21.  What [PATCH] answers to a body it cannot work with.  A body
    that is not JSON or is [null], and a [title] or [author] that passes
    the emptiness test without being a string, get 500
    [{error: "Internal server error"}]; nothing is changed, even when the
    body also carries fields that could have been applied. *)
Theorem X21_patch_unusable_body (sess : Session.t) (i : string) (t : table) :
  BookIdRoute.PATCH (Auth.signed_in sess) i Js.Throw t = (internal_server_error, t)
  /\ BookIdRoute.PATCH (Auth.signed_in sess) i (Js.Ok Js.JNull) t
     = (internal_server_error, t)
  /\ (forall body title author,
        Js.get body "title" = Js.Ok title ->
        Js.get body "author" = Js.Ok author ->
        (Js.truthy title = true /\ forall s, title <> Some (Js.JStr s))
        \/ (Js.truthy author = true /\ forall s, author <> Some (Js.JStr s)) ->
        BookIdRoute.PATCH (Auth.signed_in sess) i (Js.Ok body) t
        = (internal_server_error, t)).
Proof.
  split; [reflexivity|]. split; [reflexivity|].
  intros body title author Gt Ga H. rewrite PATCH_signed_in. cbn [Js.bind].
  assert (BookIdRoute.updates_of body = Js.Throw) as ->; [|reflexivity].
  unfold BookIdRoute.updates_of, BookIdRoute.trimmed_field.
  rewrite Gt, Ga. cbn [Js.bind].
  destruct H as [[T N]|[T N]].
  - rewrite T. destruct title as [[| | |s| |]|]; try reflexivity.
    exfalso. apply (N s). reflexivity.
  - rewrite T.
    assert (Js.call_trim author = Js.Throw) as ->.
    { destruct author as [[| | |s| |]|]; try reflexivity.
      exfalso. apply (N s). reflexivity. }
    destruct (Js.truthy title); [destruct (Js.call_trim title)|]; reflexivity.
Qed.

(** A valid status next to a numeric title: nothing is applied. *)
Lemma X21_patch_unusable_body_witness :
  BookIdRoute.PATCH (Auth.signed_in Sample.alice) "b1"
    (Js.Ok (Js.JObj [("title", Js.JNum 1984); ("status", Js.JStr "completed")]))
    Sample.shelf
  = (internal_server_error, Sample.shelf).
Proof.
  apply (proj2 (proj2 (X21_patch_unusable_body Sample.alice "b1" Sample.shelf))
           _ (Some (Js.JNum 1984)) None);
    try reflexivity.
  left. split; [reflexivity|]. intros s. discriminate.
Defined.

(** ** app/dashboard/page.tsx against the API it calls *)

Section DashboardFacts.

Variables (calls : list Middleware.cookie_call) (a : Auth.t).

Lemma server_get (status search : option string) (t : table) :
  fst (Server.get_books calls a status search t) = BooksRoute.GET a status search t.
Proof.
  unfold Server.get_books. change "/api/books" with ("/api/" ++ "books").
  rewrite api_path_passes; [reflexivity|].
  intros Ha. destruct (unauthenticated_is_401 a Ha) as (HG & _). rewrite HG.
  reflexivity.
Qed.

Lemma server_post (req : Js.result Js.json) (d : defaults) (t : table) :
  Server.post_book calls a req d t = BooksRoute.POST a req d t.
Proof.
  unfold Server.post_book. change "/api/books" with ("/api/" ++ "books").
  apply api_path_passes.
  intros Ha. destruct (unauthenticated_is_401 a Ha) as (_ & HP & _). apply HP.
Qed.

Lemma server_delete (i : string) (t : table) :
  Server.delete_book calls a i t = BookIdRoute.DELETE a i t.
Proof.
  unfold Server.delete_book.
  change ("/api/books/" ++ i) with ("/api/" ++ ("books/" ++ i)).
  apply api_path_passes.
  intros Ha. destruct (unauthenticated_is_401 a Ha) as (_ & _ & _ & HD & _). apply HD.
Qed.

Lemma server_patch (i : string) (req : Js.result Js.json) (t : table) :
  Server.patch_book calls a i req t = BookIdRoute.PATCH a i req t.
Proof.
  unfold Server.patch_book.
  change ("/api/books/" ++ i) with ("/api/" ++ ("books/" ++ i)).
  apply api_path_passes.
  intros Ha. destruct (unauthenticated_is_401 a Ha) as (_ & _ & _ & _ & HU). apply HU.
Qed.

End DashboardFacts.

(** The shapes of the answers: [GET] answers 200 with [books], 500 or
    401; [POST] answers 201 with [book] or an error that is not ok. *)
Lemma GET_shape (a : Auth.t) (status search : option string) (t : table) :
  (exists l, BooksRoute.GET a status search t = json (books l) 200)
  \/ (exists m, BooksRoute.GET a status search t = json (error m) 500)
  \/ BooksRoute.GET a status search t = unauthorized.
Proof.
  destruct (Auth.admitted a) as [sess|] eqn:A.
  - apply admitted_signed_in in A. subst a.
    destruct (GET_answers sess status search) as [(m & E)|(fs & E)];
      rewrite E; eauto.
  - right. right. apply (unauthenticated_is_401 a A).
Qed.

Lemma POST_shape (a : Auth.t) (req : Js.result Js.json) (d : defaults) (t : table) :
  (exists b, BooksRoute.POST a req d t = (json (book b) 201, (t ++ [b])%list))
  \/ (exists m c, BooksRoute.POST a req d t = (json (error m) c, t)
                  /\ Dashboard.ok c = false).
Proof.
  destruct (Auth.admitted a) as [sess|] eqn:A.
  - apply admitted_signed_in in A. subst a.
    destruct (POST_outcomes sess req d t) as [(b & E & _)|(E & _ & m & c & F & C)].
    + left. eauto.
    + right. exists m, c.
      destruct (BooksRoute.POST (Auth.signed_in sess) req d t) as [r t'].
      cbn [fst snd] in *. subst. split; [reflexivity|].
      destruct C as [-> | ->]; reflexivity.
  - right. destruct (unauthenticated_is_401 a A) as (_ & HP & _).
    rewrite HP. exists "Unauthorized", 401%nat. split; reflexivity.
Qed.

Lemma DELETE_id_shape (a : Auth.t) (i : string) (t : table) :
  exists b s, fst (BookIdRoute.DELETE a i t) = json b s.
Proof.
  unfold BookIdRoute.DELETE, delete.
  destruct (Auth.admitted a); do 2 eexists; reflexivity.
Qed.

Lemma PATCH_shape (a : Auth.t) (i : string) (req : Js.result Js.json) (t : table) :
  exists b s, fst (BookIdRoute.PATCH a i req t) = json b s.
Proof.
  unfold BookIdRoute.PATCH.
  destruct (Auth.admitted a); [|do 2 eexists; reflexivity].
  destruct req as [body|]; cbn [Js.bind Js.catch]; [|do 2 eexists; reflexivity].
  destruct (BookIdRoute.updates_of body) as [u|]; cbn [Js.bind Js.catch];
    [|do 2 eexists; reflexivity].
  destruct (BookIdRoute.no_keys u); [do 2 eexists; reflexivity|].
  destruct (update_single u _ t) as [[b|m] t']; do 2 eexists; reflexivity.
Qed.

(** X22.  The dashboard reads nothing the API does not send.  Whoever
    is signed in on either side, every ok answer to [fetchBooks] carries
    [books] and every ok answer to [handleAddBook] carries [book], and
    every answer to any of the four handlers is JSON: no call ends in
    the state this model leaves open. *)
Theorem X22_dashboard_api_agree (session : option Session.t)
        (calls : list Middleware.cookie_call) (a : Auth.t) (d : defaults)
        (st : Dashboard.state) (t : table) :
  Dashboard.fetchBooks session calls a st t <> Dashboard.unmodelled
  /\ Dashboard.handleAddBook session calls a d st t <> Dashboard.unmodelled
  /\ (forall confirmed i,
        Dashboard.handleDeleteBook confirmed session calls a i st t
        <> Dashboard.unmodelled)
  /\ (forall i status,
        Dashboard.handleUpdateStatus session calls a i status st t
        <> Dashboard.unmodelled).
Proof.
  repeat split.
  - unfold Dashboard.fetchBooks. destruct session; [|discriminate].
    rewrite server_get.
    destruct (GET_shape a (Dashboard.param (Dashboard.filter st))
                (Dashboard.param (Dashboard.search st)) t)
      as [[l ->]|[[m ->]| ->]];
      cbn; discriminate.
  - unfold Dashboard.handleAddBook. destruct session; [|discriminate].
    rewrite server_post.
    destruct (POST_shape a (Js.Ok (Dashboard.form_json (Dashboard.formData st))) d t)
      as [(b & ->)|(m & c & -> & Hc)].
    + cbn. discriminate.
    + rewrite Hc. discriminate.
  - intros confirmed i. unfold Dashboard.handleDeleteBook.
    destruct confirmed; cbn [negb]; [|discriminate].
    destruct session; [|discriminate].
    rewrite server_delete. destruct (DELETE_id_shape a i t) as (b & s & E).
    destruct (BookIdRoute.DELETE a i t) as [r t']. cbn [fst] in E. subst r.
    destruct (Dashboard.ok s); discriminate.
  - intros i status. unfold Dashboard.handleUpdateStatus.
    destruct session; [|discriminate].
    rewrite server_patch.
    destruct (PATCH_shape a i (Js.Ok (Js.JObj [("status", Js.JStr status)])) t)
      as (b & s & E).
    destruct (BookIdRoute.PATCH a i _ t) as [r t']. cbn [fst] in E. subst r.
    destruct (Dashboard.ok s); discriminate.
Qed.

Section Sync.




(** A dashboard in line with the server shows the sorted rows that pass
    the filters of its request, the owner's first. *)
Lemma in_sync_list (sess : Session.t) (st : Dashboard.state) (t : table) :
  in_sync sess st t ->
  exists fs,
    (forall t',
        BooksRoute.GET (Auth.signed_in sess)
                       (Dashboard.param (Dashboard.filter st))
                       (Dashboard.param (Dashboard.search st)) t'
        = json (books (order_desc
                         (filter (matches (Eq col_user_id (uid_of sess) :: fs)) t')))
               200)
    /\ Dashboard.books st
       = order_desc (filter (matches (Eq col_user_id (uid_of sess) :: fs)) t).
Proof.
  unfold in_sync. intros S.
  destruct (GET_answers sess (Dashboard.param (Dashboard.filter st))
                        (Dashboard.param (Dashboard.search st)))
    as [(m & E)|(fs & E)]; rewrite E in S; [discriminate|].
  exists fs. split; [exact E|]. injection S as S. symmetry. exact S.
Qed.



Lemma listed_after_delete (uid i : string) (fs : list clause) (t : table) :
  order_desc (filter (matches (Eq col_user_id uid :: fs))
                     (snd (delete [Eq col_id i; Eq col_user_id uid] t)))
  = filter (fun b => negb (String.eqb (Book.id b) i))
           (order_desc (filter (matches (Eq col_user_id uid :: fs)) t)).
Proof.
  cbn [snd delete]. rewrite filter_order_desc. f_equal.
  rewrite !filter_filter_and. apply filter_ext. intros b.
  rewrite matches_id_owner.
  destruct (matches (Eq col_user_id uid :: fs) b) eqn:M.
  - apply matches_owner in M. rewrite M, !andb_true_r. reflexivity.
  - rewrite andb_false_r. reflexivity.
Qed.


End Sync.

(** X23.  [fetchBooks] brings the dashboard in line with the server.
    For a signed-in user whose search text is empty or made of plain
    characters it sets [books] to the very list [GET] returns for the
    filter and the search text of the dashboard, an unset filter or an
    empty search text sending no parameter, and clears [loading]; with
    "All Books" and no search text that is every Book of the user,
    newest first.  With any other search text it does the same or, when
    [GET] answers 500, logs the error and leaves the list as it is. *)
Theorem X23_fetch_books_syncs (sess : Session.t)
        (calls : list Middleware.cookie_call) (st : Dashboard.state) (t : table) :
  (plain_search (Dashboard.param (Dashboard.search st)) = true ->
   exists l,
     Dashboard.fetchBooks (Some sess) calls (Auth.signed_in sess) st t
     = Dashboard.ran (Dashboard.setLoading false (Dashboard.setBooks l st), [])
     /\ in_sync sess (Dashboard.setLoading false (Dashboard.setBooks l st)) t
     /\ (Dashboard.filter st = "" -> Dashboard.search st = "" ->
         l = order_desc (filter (owned_by (uid_of sess)) t)))
  /\ ((exists l,
         Dashboard.fetchBooks (Some sess) calls (Auth.signed_in sess) st t
         = Dashboard.ran (Dashboard.setLoading false (Dashboard.setBooks l st), [])
         /\ in_sync sess (Dashboard.setLoading false (Dashboard.setBooks l st)) t)
      \/ (exists m,
            Dashboard.fetchBooks (Some sess) calls (Auth.signed_in sess) st t
            = Dashboard.ran (Dashboard.setLoading false st,
                             [Dashboard.console_error (Some m)])
            /\ BooksRoute.GET (Auth.signed_in sess)
                              (Dashboard.param (Dashboard.filter st))
                              (Dashboard.param (Dashboard.search st)) t
               = json (error m) 500)).
Proof.
  assert (forall l,
             BooksRoute.GET (Auth.signed_in sess)
                            (Dashboard.param (Dashboard.filter st))
                            (Dashboard.param (Dashboard.search st)) t
             = json (books l) 200 ->
             Dashboard.fetchBooks (Some sess) calls (Auth.signed_in sess) st t
             = Dashboard.ran (Dashboard.setLoading false (Dashboard.setBooks l st), [])
             /\ in_sync sess (Dashboard.setLoading false (Dashboard.setBooks l st)) t)
    as Hl.
  { intros l E. unfold Dashboard.fetchBooks, in_sync.
    rewrite server_get. cbn [fst Dashboard.filter Dashboard.search Dashboard.books
                             Dashboard.setLoading Dashboard.setBooks].
    rewrite E. split; reflexivity. }
  split.
  - intros Hp.
    destruct (GET_plain_search sess (Dashboard.param (Dashboard.filter st))
                (Dashboard.param (Dashboard.search st)) t Hp) as [l E].
    exists l. destruct (Hl l E) as [H1 H2]. split; [exact H1|]. split; [exact H2|].
    intros Hf Hq. rewrite Hf, Hq in E.
    change (Dashboard.param "") with (@None string) in E.
    rewrite GET_without_search in E by reflexivity. injection E as <-.
    f_equal. apply filter_ext. intros b.
    unfold matches, owned_by. cbn. rewrite andb_true_r. reflexivity.
  - destruct (GET_answers sess (Dashboard.param (Dashboard.filter st))
                (Dashboard.param (Dashboard.search st))) as [(m & E)|(fs & E)].
    + right. exists m. split; [|apply E].
      unfold Dashboard.fetchBooks. rewrite server_get. cbn [fst]. rewrite E.
      reflexivity.
    + left. eexists. apply Hl. apply E.
Qed.

(** Alice's dashboard, with no search text, loads her two books. *)
Lemma X23_fetch_books_syncs_witness :
  plain_search (Dashboard.param (Dashboard.search sample_dashboard)) = true
  /\ exists l,
       Dashboard.fetchBooks (Some Sample.alice) [] (Auth.signed_in Sample.alice)
                            sample_dashboard Sample.shelf
       = Dashboard.ran (Dashboard.setLoading false
                          (Dashboard.setBooks l sample_dashboard), [])
       /\ l = [Sample.ulysses; Sample.dune].
Proof.
  split; [reflexivity|].
  destruct (proj1 (X23_fetch_books_syncs Sample.alice [] sample_dashboard Sample.shelf)
              eq_refl) as (l & E & _ & L).
  exists l. split; [exact E|]. rewrite (L eq_refl eq_refl). vm_compute. reflexivity.
Defined.

(** X24.  Deleting through the dashboard keeps it in line with the
    server, under any filter and search text: if the list shown is what
    [GET] returns, then after a confirmed [handleDeleteBook] of a
    signed-in user, which raises no alert, the list shown is what [GET]
    returns on the table the [DELETE] left. *)
Theorem X24_delete_keeps_sync (sess : Session.t)
        (calls : list Middleware.cookie_call) (i : string)
        (st : Dashboard.state) (t : table) :
  in_sync sess st t ->
  exists st',
    Dashboard.handleDeleteBook true (Some sess) calls (Auth.signed_in sess) i st t
    = Dashboard.ran (st', [],
                     snd (BookIdRoute.DELETE (Auth.signed_in sess) i t))
    /\ in_sync sess st' (snd (BookIdRoute.DELETE (Auth.signed_in sess) i t)).
Proof.
  intros S. apply in_sync_list in S. destruct S as (fs & E & S).
  eexists. unfold Dashboard.handleDeleteBook. cbn [negb].
  rewrite server_delete, DELETE_id_signed_in.
  cbn [Dashboard.ok Nat.leb andb snd]. split; [reflexivity|].
  unfold in_sync. cbn [Dashboard.books Dashboard.setBooks
                       Dashboard.filter Dashboard.search].
  rewrite E, S. do 2 f_equal. apply listed_after_delete.
Qed.

Lemma X24_delete_keeps_sync_witness :
  in_sync Sample.alice sample_dashboard Sample.shelf
  /\ exists st',
       Dashboard.handleDeleteBook true (Some Sample.alice) []
                                  (Auth.signed_in Sample.alice) "b1"
                                  sample_dashboard Sample.shelf
       = Dashboard.ran (st', [],
                        snd (BookIdRoute.DELETE (Auth.signed_in Sample.alice) "b1"
                                                Sample.shelf))
       /\ in_sync Sample.alice st'
                  (snd (BookIdRoute.DELETE (Auth.signed_in Sample.alice) "b1"
                                           Sample.shelf)).
Proof.
  assert (in_sync Sample.alice sample_dashboard Sample.shelf) as S
    by (vm_compute; reflexivity).
  split; [exact S|].
  apply (X24_delete_keeps_sync Sample.alice [] "b1" sample_dashboard Sample.shelf S).
Defined.

(** Why the search text of X25 may hold no comma.  Alice searches for
    [zzz,status.eq.reading,title.ilike.zzz]: the commas make "status
    equals reading" one of the alternatives of the filter, so "Dune",
    which she is reading, is listed.  When she marks it as completed the
    dashboard still shows it, and the server no longer returns it. *)
Example comma_filters_on_status :
  let st := Dashboard.mk [Sample.dune] false false FormData.initial
                         "" "zzz,status.eq.reading,title.ilike.zzz" None in
  in_sync Sample.alice st Sample.shelf
  /\ exists st' t',
       Dashboard.handleUpdateStatus (Some Sample.alice) []
                                    (Auth.signed_in Sample.alice) "b1" "completed"
                                    st Sample.shelf
       = Dashboard.ran (st', [], t')
       /\ Dashboard.books st' = [Dashboard.with_status "completed" Sample.dune]
       /\ BooksRoute.GET (Auth.signed_in Sample.alice) None
                         (Some "zzz,status.eq.reading,title.ilike.zzz") t'
          = json (books []) 200.
Proof.
  split; [vm_compute; reflexivity|].
  do 2 eexists. split; [vm_compute; reflexivity|].
  split; vm_compute; reflexivity.
Qed.





(** X27.  [getStatusColor] gives each of the three statuses a class of
    its own, and the gray class to every other status that is not the
    name of a property all objects inherit; under such a name the lookup
    finds the inherited value and returns that instead of a class. *)
Theorem X27_status_colors (status : string) :
  (In status statuses ->
     exists c, Dashboard.getStatusColor status = Dashboard.class_names c
               /\ c <> "bg-gray-100 text-gray-800"
               /\ forall other, In other statuses ->
                    Dashboard.getStatusColor other = Dashboard.class_names c ->
                    other = status)
  /\ (~ In status statuses -> ~ In status Dashboard.inherited_names ->
      Dashboard.getStatusColor status
      = Dashboard.class_names "bg-gray-100 text-gray-800")
  /\ (In status Dashboard.inherited_names ->
      Dashboard.getStatusColor status = Dashboard.inherited status).
Proof.
  split; [|split].
  - intros [<-|[<-|[<-|[]]]]; eexists; (split; [reflexivity|]);
      (split; [discriminate|]);
      intros other [<-|[<-|[<-|[]]]]; try reflexivity; discriminate.
  - intros Hs Hi. unfold Dashboard.getStatusColor.
    destruct (String.eqb_spec status "reading") as [->|_];
      [exfalso; apply Hs; cbn; auto|].
    destruct (String.eqb_spec status "completed") as [->|_];
      [exfalso; apply Hs; cbn; auto|].
    destruct (String.eqb_spec status "wishlist") as [->|_];
      [exfalso; apply Hs; cbn; auto|].
    destruct (Js.includes_str Dashboard.inherited_names status) eqn:E;
      [|reflexivity].
    apply includes_str_In in E. contradiction.
  - intros Hi. unfold Dashboard.getStatusColor.
    assert (Js.includes_str Dashboard.inherited_names status = true) as ->
      by (apply includes_str_In; exact Hi).
    repeat (destruct Hi as [<-|Hi]; [reflexivity|]). destruct Hi.
Qed.

Lemma X27_status_colors_witness :
  Dashboard.getStatusColor "completed"
  = Dashboard.class_names "bg-green-100 text-green-800"
  /\ Dashboard.getStatusColor "abandoned"
     = Dashboard.class_names "bg-gray-100 text-gray-800".
Proof.
  split; [reflexivity|].
  apply (proj1 (proj2 (X27_status_colors "abandoned"))).
  - intros [H|[H|[H|[]]]]; discriminate.
  - cbn. intuition discriminate.
Defined.

(** X28.  On the path of its own route the collection-route [DELETE]
    takes the word [books] for the id: a [DELETE /api/books] of a
    signed-in user who owns no row with the id ["books"] is answered 404
    [{error: "Book not found or unauthorized"}], never 400
    "Book ID is required", and deletes nothing. *)
Theorem X28_delete_on_collection_path (sess : Session.t) (t : table) :
  (forall b, In b t -> Book.id b = "books" -> Book.user_id b <> uid_of sess) ->
  BooksRoute.DELETE (Auth.signed_in sess) "/api/books" t
  = (json (error "Book not found or unauthorized") 404, t).
Proof.
  intros H. apply DELETE_collection_not_found with (i := "books").
  - reflexivity.
  - discriminate.
  - destruct (filter _ t) as [|b rest] eqn:F; [reflexivity|].
    assert (In b (b :: rest)) as Hb by (left; reflexivity).
    rewrite <- F in Hb. apply filter_In in Hb. destruct Hb as [Hb Hm].
    rewrite matches_id_owner in Hm. apply andb_true_iff in Hm.
    destruct Hm as [Hi Ho]. apply String.eqb_eq in Hi, Ho.
    exfalso. exact (H b Hb Hi Ho).
Qed.

Lemma X28_delete_on_collection_path_witness :
  BooksRoute.DELETE (Auth.signed_in Sample.alice) "/api/books" Sample.shelf
  = (json (error "Book not found or unauthorized") 404, Sample.shelf).
Proof.
  apply (X28_delete_on_collection_path Sample.alice Sample.shelf).
  intros b [<-|[<-|[<-|[]]]]; discriminate.
Defined.
